(** * LebFix service marketplace backend: booking ledger and role-scoped
      authorization

    A shallow embedding of the request handlers of [backend/server.py].
    The handlers read and write four collections of a document store
    ([users], [companies], [service_providers], [bookings]); a stored
    document is a dictionary from field names to values, a collection is
    the list of its documents in insertion order, and a handler is a
    computation in a state-and-exception monad over the store. *)

From Stdlib Require Import PrimFloat ZArith.
From stdpp Require Import gmap strings list fin_maps pretty.

#[local] Set Warnings "-register-all".
#[local] Open Scope string_scope.
#[local] Open Scope Z_scope.

(** ** Values and documents *)

(** The values a document field holds: BSON / JSON values as Python sees
    them.  A [datetime] is kept as a timestamp. *)
Inductive value : Type :=
| VNull
| VBool (b : bool)
| VInt (n : Z)
| VFloat (f : float)
| VStr (s : string)
| VTime (t : Z)
| VList (l : list value)
| VDict (d : list (string * value)).

(** A stored document, a Python [dict] keyed by field name. *)
Abbreviation doc := (gmap string value).

(** Equality of two values, as Python's [==] and the store's equality
    filter decide it on values of one kind (floats by IEEE equality). *)
Fixpoint value_eqb (v w : value) {struct v} : bool :=
  match v, w with
  | VNull, VNull => true
  | VBool a, VBool b => Bool.eqb a b
  | VInt a, VInt b => Z.eqb a b
  | VFloat a, VFloat b => PrimFloat.eqb a b
  | VStr a, VStr b => String.eqb a b
  | VTime a, VTime b => Z.eqb a b
  | VList l, VList m =>
      (fix go (l m : list value) {struct l} : bool :=
         match l, m with
         | [], [] => true
         | x :: l', y :: m' => value_eqb x y && go l' m'
         | _, _ => false
         end) l m
  | VDict d, VDict e =>
      (fix go (d e : list (string * value)) {struct d} : bool :=
         match d, e with
         | [], [] => true
         | (k, x) :: d', (k', y) :: e' =>
             String.eqb k k' && value_eqb x y && go d' e'
         | _, _ => false
         end) d e
  | _, _ => false
  end.

(** ** Enumerations of the source *)

Inductive UserRole := CUSTOMER | FREELANCE_FIXER | EMPLOYEE_FIXER | COMPANY.

Definition UserRole_value (r : UserRole) : string :=
  match r with
  | CUSTOMER => "customer"
  | FREELANCE_FIXER => "freelance_fixer"
  | EMPLOYEE_FIXER => "employee_fixer"
  | COMPANY => "company"
  end.

Definition UserRole_eqb (a b : UserRole) : bool :=
  match a, b with
  | CUSTOMER, CUSTOMER | FREELANCE_FIXER, FREELANCE_FIXER
  | EMPLOYEE_FIXER, EMPLOYEE_FIXER | COMPANY, COMPANY => true
  | _, _ => false
  end.

Inductive ServiceCategory := ELECTRICAL | TECHNICAL | MECHANICAL | PLUMBING.

Definition ServiceCategory_value (c : ServiceCategory) : string :=
  match c with
  | ELECTRICAL => "electrical"
  | TECHNICAL => "technical"
  | MECHANICAL => "mechanical"
  | PLUMBING => "plumbing"
  end.

Inductive BookingStatus := PENDING | CONFIRMED | IN_PROGRESS | COMPLETED | CANCELLED.

Definition BookingStatus_value (s : BookingStatus) : string :=
  match s with
  | PENDING => "pending"
  | CONFIRMED => "confirmed"
  | IN_PROGRESS => "in_progress"
  | COMPLETED => "completed"
  | CANCELLED => "cancelled"
  end.

(** ** The models *)

Definition opt_str (o : option string) : value :=
  match o with Some s => VStr s | None => VNull end.

Definition opt_float (o : option float) : value :=
  match o with Some f => VFloat f | None => VNull end.

Definition opt_value (o : option value) : value :=
  match o with Some v => v | None => VNull end.

Module User.
Record t := {
  id : string;
  email : string;
  name : string;
  role : UserRole;
  phone : option string;
  picture : option string;
  session_token : option string;
  created_at : Z;
  company_id : option string;
  address : option string;
  working_hours : option value;
  is_available : bool
}.

(** [User.dict()] *)
Definition dict (u : t) : doc :=
  <["id" := VStr (id u)]> (
  <["email" := VStr (email u)]> (
  <["name" := VStr (name u)]> (
  <["role" := VStr (UserRole_value (role u))]> (
  <["phone" := opt_str (phone u)]> (
  <["picture" := opt_str (picture u)]> (
  <["session_token" := opt_str (session_token u)]> (
  <["created_at" := VTime (created_at u)]> (
  <["company_id" := opt_str (company_id u)]> (
  <["address" := opt_str (address u)]> (
  <["working_hours" := opt_value (working_hours u)]> (
  <["is_available" := VBool (is_available u)]> ∅))))))))))).
End User.

Module Company.
Record t := {
  id : string;
  name : string;
  owner_id : string;
  email : string;
  phone : string;
  address : string;
  description : option string;
  service_categories : list ServiceCategory;
  employees : list string;
  created_at : Z
}.

(** [Company.dict()] *)
Definition dict (c : t) : doc :=
  <["id" := VStr (id c)]> (
  <["name" := VStr (name c)]> (
  <["owner_id" := VStr (owner_id c)]> (
  <["email" := VStr (email c)]> (
  <["phone" := VStr (phone c)]> (
  <["address" := VStr (address c)]> (
  <["description" := opt_str (description c)]> (
  <["service_categories" :=
      VList ((VStr ∘ ServiceCategory_value) <$> service_categories c)]> (
  <["employees" := VList (VStr <$> employees c)]> (
  <["created_at" := VTime (created_at c)]> ∅))))))))).
End Company.

Module ServiceProvider.
Record t := {
  id : string;
  user_id : string;
  company_id : option string;
  service_categories : list ServiceCategory;
  hourly_rate : option float;
  emergency_rate : option float;
  description : option string;
  rating : float;
  total_jobs : Z;
  location : option value;
  availability : list (string * value);
  created_at : Z
}.

(** [ServiceProvider.dict()] *)
Definition dict (p : t) : doc :=
  <["id" := VStr (id p)]> (
  <["user_id" := VStr (user_id p)]> (
  <["company_id" := opt_str (company_id p)]> (
  <["service_categories" :=
      VList ((VStr ∘ ServiceCategory_value) <$> service_categories p)]> (
  <["hourly_rate" := opt_float (hourly_rate p)]> (
  <["emergency_rate" := opt_float (emergency_rate p)]> (
  <["description" := opt_str (description p)]> (
  <["rating" := VFloat (rating p)]> (
  <["total_jobs" := VInt (total_jobs p)]> (
  <["location" := opt_value (location p)]> (
  <["availability" := VDict (availability p)]> (
  <["created_at" := VTime (created_at p)]> ∅))))))))))).
End ServiceProvider.

Module Booking.
Record t := {
  id : string;
  customer_id : string;
  provider_id : string;
  company_id : option string;
  service_category : ServiceCategory;
  description : string;
  scheduled_date : Z;
  status : BookingStatus;
  price : option float;
  location : list (string * value);
  emergency : bool;
  created_at : Z;
  updated_at : Z
}.

(** [Booking.dict()] *)
Definition dict (b : t) : doc :=
  <["id" := VStr (id b)]> (
  <["customer_id" := VStr (customer_id b)]> (
  <["provider_id" := VStr (provider_id b)]> (
  <["company_id" := opt_str (company_id b)]> (
  <["service_category" := VStr (ServiceCategory_value (service_category b))]> (
  <["description" := VStr (description b)]> (
  <["scheduled_date" := VTime (scheduled_date b)]> (
  <["status" := VStr (BookingStatus_value (status b))]> (
  <["price" := opt_float (price b)]> (
  <["location" := VDict (location b)]> (
  <["emergency" := VBool (emergency b)]> (
  <["created_at" := VTime (created_at b)]> (
  <["updated_at" := VTime (updated_at b)]> ∅)))))))))))).
End Booking.

(** [BookingCreate], the request body of [create_booking]. *)
Record BookingCreate := {
  bc_provider_id : string;
  bc_service_category : ServiceCategory;
  bc_description : string;
  bc_scheduled_date : Z;
  bc_location : list (string * value);
  bc_emergency : bool
}.

(** ** The document store *)

Record DB := {
  users : list doc;
  companies : list doc;
  service_providers : list doc;
  bookings : list doc
}.

Inductive collection := Users | Companies | Service_providers | Bookings.

Definition docs (c : collection) (db : DB) : list doc :=
  match c with
  | Users => users db
  | Companies => companies db
  | Service_providers => service_providers db
  | Bookings => bookings db
  end.

Definition set_docs (c : collection) (l : list doc) (db : DB) : DB :=
  match c with
  | Users =>
      {| users := l; companies := companies db;
         service_providers := service_providers db; bookings := bookings db |}
  | Companies =>
      {| users := users db; companies := l;
         service_providers := service_providers db; bookings := bookings db |}
  | Service_providers =>
      {| users := users db; companies := companies db;
         service_providers := l; bookings := bookings db |}
  | Bookings =>
      {| users := users db; companies := companies db;
         service_providers := service_providers db; bookings := l |}
  end.

(** ** Exceptions and the handler monad *)

(** What a handler can raise: FastAPI's [HTTPException], and the Python
    exceptions that escape a handler (answered with status 500). *)
Inductive exn :=
| HTTPException (status_code : Z) (detail : string)
| KeyError (key : string)
| ValidationError (field : string)
| WriteError (field : string)
| RequestError (message : string)
| JSONDecodeError.

Inductive outcome (A : Type) :=
| Returned (a : A)
| Raised (e : exn).
Arguments Returned {A} a.
Arguments Raised {A} e.

(** A handler step: it runs on a store, returns or raises, and leaves a
    store behind in both cases (a write done before a later [raise]
    stays done). *)
Definition M (A : Type) : Type := DB → outcome A * DB.

#[export] Instance M_ret : MRet M := λ A a db, (Returned a, db).

#[export] Instance M_bind : MBind M := λ A B f m db,
  match m db with
  | (Returned a, db') => f a db'
  | (Raised e, db') => (Raised e, db')
  end.

Definition raise {A : Type} (e : exn) : M A := λ db, (Raised e, db).

(** [try: body except Exception as e: handler(e)] *)
Definition try_except {A : Type} (body : M A) (handler : exn → M A) : M A :=
  λ db,
    match body db with
    | (Returned a, db') => (Returned a, db')
    | (Raised e, db') => handler e db'
    end.

(** [d[k]] *)
Definition getitem (d : doc) (k : string) : M value :=
  match d !! k with
  | Some v => mret v
  | None => raise (KeyError k)
  end.

(** [d.get(k, dflt)] *)
Definition get (d : doc) (k : string) (dflt : value) : value :=
  default dflt (d !! k).

(** ** Store operations *)

(** The equality filter [{k: q}] on one document. *)
Definition doc_matches (k : string) (q : value) (d : doc) : bool :=
  match d !! k with
  | Some v => value_eqb v q
  | None => false
  end.

(** A filter document holds at most one key in this program: [{}] or
    [{k: q}]. *)
Definition filter_matches (query : option (string * value)) (d : doc) : bool :=
  match query with
  | None => true
  | Some (k, q) => doc_matches k q d
  end.

(** [await db.c.find_one({k: q})]: the first matching document. *)
Definition find_one (c : collection) (k : string) (q : value) : M (option doc) :=
  λ db, (Returned (List.find (doc_matches k q) (docs c db)), db).

(** [await db.c.find(query).to_list(n)] *)
Definition find_to_list (c : collection) (query : option (string * value))
    (n : nat) : M (list doc) :=
  λ db, (Returned (take n (List.filter (filter_matches query) (docs c db))), db).

(** [await db.c.insert_one(d)] *)
Definition insert_one (c : collection) (d : doc) : M unit :=
  λ db, (Returned tt, set_docs c (docs c db ++ [d]) db).

(** The update operators the handlers use. *)
Inductive update :=
| Set_ (fields : doc)
| AddToSet (k : string) (v : value).

(** [$set]: the given fields written over the document's. *)
Definition set_fields (fields : doc) (d : doc) : doc := fields ∪ d.

(** [$addToSet] on one document; [None] when the store refuses it (the
    field holds something that is not an array). *)
Definition add_to_set (k : string) (v : value) (d : doc) : option doc :=
  match d !! k with
  | None => Some (<[k := VList [v]]> d)
  | Some (VList l) =>
      if existsb (λ x, value_eqb x v) l then Some d
      else Some (<[k := VList (l ++ [v])]> d)
  | Some _ => None
  end.

(** The first document that satisfies [p] replaced by its image under
    [g]. *)
Fixpoint alter_first (p : doc → bool) (g : doc → doc) (l : list doc) : list doc :=
  match l with
  | [] => []
  | d :: l' => if p d then g d :: l' else d :: alter_first p g l'
  end.

(** The same for an update [f] that can be refused: [None] when [f]
    refuses the first document that satisfies [p]. *)
Fixpoint update_first (p : doc → bool) (f : doc → option doc)
    (l : list doc) : option (list doc) :=
  match l with
  | [] => Some []
  | d :: l' =>
      if p d then (λ d', d' :: l') <$> f d
      else (λ r, d :: r) <$> update_first p f l'
  end.

(** [await db.c.update_one({k: q}, u)]: the first matching document is
    updated in place; with no match nothing is written. *)
Definition update_one (c : collection) (k : string) (q : value) (u : update)
    : M unit :=
  λ db,
    match u with
    | Set_ fields =>
        (Returned tt,
         set_docs c (alter_first (doc_matches k q) (set_fields fields) (docs c db)) db)
    | AddToSet f v =>
        match update_first (doc_matches k q) (add_to_set f v) (docs c db) with
        | Some l => (Returned tt, set_docs c l db)
        | None => (Raised (WriteError f), db)
        end
    end.

(** ** Model validation *)

(** What pydantic checks when a model is built from stored values: a
    value of the field's declared kind passes unchanged.  A value of
    another kind is refused here; pydantic's conversions between kinds
    (a number read as a string, an integer as a float) are not part of
    this model. *)
Definition validate_str (field : string) (v : value) : M string :=
  match v with
  | VStr s => mret s
  | _ => raise (ValidationError field)
  end.

Definition validate_opt_str (field : string) (v : value) : M (option string) :=
  match v with
  | VNull => mret None
  | VStr s => mret (Some s)
  | _ => raise (ValidationError field)
  end.

Definition validate_opt_float (field : string) (v : value) : M (option float) :=
  match v with
  | VNull => mret None
  | VFloat f => mret (Some f)
  | _ => raise (ValidationError field)
  end.

Definition validate_role (field : string) (v : value) : M UserRole :=
  match v with
  | VStr s =>
      if String.eqb s "customer" then mret CUSTOMER
      else if String.eqb s "freelance_fixer" then mret FREELANCE_FIXER
      else if String.eqb s "employee_fixer" then mret EMPLOYEE_FIXER
      else if String.eqb s "company" then mret COMPANY
      else raise (ValidationError field)
  | _ => raise (ValidationError field)
  end.

(** A field with a default: absent from the document, the default is
    taken; present, it is validated. *)
Definition with_default {A : Type} (d : doc) (k : string) (dflt : A)
    (validate : string → value → M A) : M A :=
  match d !! k with
  | None => mret dflt
  | Some v => validate k v
  end.

(** A required field. *)
Definition required {A : Type} (d : doc) (k : string)
    (validate : string → value → M A) : M A :=
  match d !! k with
  | None => raise (ValidationError k)
  | Some v => validate k v
  end.

(** The [User] model built from the keys of a stored document, with
    [uuid4] and [utcnow] the values the default factories would draw. *)
Definition User_parse (d : doc) (uuid4 : string) (utcnow : Z) : M User.t :=
  id ← with_default d "id" uuid4 validate_str;
  email ← required d "email" validate_str;
  name ← required d "name" validate_str;
  role ← required d "role" validate_role;
  phone ← with_default d "phone" None validate_opt_str;
  picture ← with_default d "picture" None validate_opt_str;
  session_token ← with_default d "session_token" None validate_opt_str;
  created_at ← with_default d "created_at" utcnow
    (λ k v, match v with VTime t => mret t | _ => raise (ValidationError k) end);
  company_id ← with_default d "company_id" None validate_opt_str;
  address ← with_default d "address" None validate_opt_str;
  working_hours ← with_default d "working_hours" None
    (λ k v, match v with
            | VNull => mret None
            | VDict _ => mret (Some v)
            | _ => raise (ValidationError k)
            end);
  is_available ← with_default d "is_available" true
    (λ k v, match v with VBool b => mret b | _ => raise (ValidationError k) end);
  mret {| User.id := id; User.email := email; User.name := name;
          User.role := role; User.phone := phone; User.picture := picture;
          User.session_token := session_token; User.created_at := created_at;
          User.company_id := company_id; User.address := address;
          User.working_hours := working_hours;
          User.is_available := is_available |}.

(** ** The handlers *)

Definition HTTP_401_UNAUTHORIZED : Z := 401.

(** [get_current_user]: the user whose stored [session_token] is the
    bearer token. *)
Definition get_current_user (token : string) (uuid4 : string) (utcnow : Z)
    : M User.t :=
  user ← find_one Users "session_token" (VStr token);
  match user with
  | None => raise (HTTPException HTTP_401_UNAUTHORIZED "Invalid authentication token")
  | Some user => User_parse user uuid4 utcnow
  end.

(** What the call to the external auth service came to: the client
    raised (with the text of the exception), or a response arrived, with
    its status code and its body read as a JSON object when it is one. *)
Inductive http_result :=
| HttpFailed (message : string)
| HttpResponse (status_code : Z) (json : option doc).

(** [str(e)] for the exception [e] caught in [verify_session].  For
    exceptions raised inside libraries the text names what the exception
    is about, not the library's wording. *)
Definition exn_str (e : exn) : string :=
  match e with
  | HTTPException c d => pretty c ++ ": " ++ d
  | KeyError k => "'" ++ k ++ "'"
  | ValidationError f => f
  | WriteError f => f
  | RequestError m => m
  | JSONDecodeError => "JSONDecodeError"
  end.

(** [verify_session]: returns [user.dict()] and [is_new_user]. *)
Definition verify_session (session_id : string) (response : http_result)
    (uuid4 : string) (utcnow : Z) : M (doc * bool) :=
  try_except
    (match response with
     | HttpFailed m => raise (RequestError m)
     | HttpResponse status_code json =>
         if negb (status_code =? 200)
         then raise (HTTPException 401 "Invalid session")
         else
           user_data ← (match json with
                        | Some j => mret j
                        | None => raise JSONDecodeError
                        end);
           email ← getitem user_data "email";
           existing_user ← find_one Users "email" email;
           match existing_user with
           | Some existing =>
               email' ← getitem user_data "email";
               token ← getitem user_data "session_token";
               update_one Users "email" email'
                 (Set_ (<["session_token" := token]> ∅));;
               user ← User_parse existing uuid4 utcnow;
               token' ← getitem user_data "session_token";
               mret (<["session_token" := token']> (User.dict user), false)
           | None =>
               email' ← getitem user_data "email";
               name ← getitem user_data "name";
               let picture := get user_data "picture" VNull in
               token ← getitem user_data "session_token";
               email' ← validate_str "email" email';
               name ← validate_str "name" name;
               picture ← validate_opt_str "picture" picture;
               session_token ← validate_opt_str "session_token" token;
               let user :=
                 {| User.id := uuid4; User.email := email'; User.name := name;
                    User.role := CUSTOMER; User.phone := None;
                    User.picture := picture;
                    User.session_token := session_token;
                    User.created_at := utcnow; User.company_id := None;
                    User.address := None; User.working_hours := None;
                    User.is_available := true |} in
               insert_one Users (User.dict user);;
               mret (User.dict user, true)
           end
     end)
    (λ e, raise (HTTPException 500 (exn_str e))).

(** [complete_profile] *)
Definition complete_profile (role : UserRole) (phone address : option string)
    (current_user : User.t) (uuid4 : string) (utcnow : Z) : M string :=
  let update_data : doc :=
    <["role" := VStr (UserRole_value role)]> (
    <["phone" := opt_str phone]> (
    <["address" := opt_str address]> ∅)) in
  update_one Users "id" (VStr (User.id current_user)) (Set_ update_data);;
  (if UserRole_eqb role COMPANY then
     let company :=
       {| Company.id := uuid4;
          Company.name := User.name current_user ++ "'s Company";
          Company.owner_id := User.id current_user;
          Company.email := User.email current_user;
          Company.phone := default "" phone;
          Company.address := default "" address;
          Company.description := None;
          Company.service_categories := [];
          Company.employees := [];
          Company.created_at := utcnow |} in
     insert_one Companies (Company.dict company)
   else if UserRole_eqb role FREELANCE_FIXER then
     let provider :=
       {| ServiceProvider.id := uuid4;
          ServiceProvider.user_id := User.id current_user;
          ServiceProvider.company_id := None;
          ServiceProvider.service_categories := [];
          ServiceProvider.hourly_rate := Some 25%float;
          ServiceProvider.emergency_rate := Some 50%float;
          ServiceProvider.description := None;
          ServiceProvider.rating := 0%float;
          ServiceProvider.total_jobs := 0;
          ServiceProvider.location := None;
          ServiceProvider.availability := [];
          ServiceProvider.created_at := utcnow |} in
     insert_one Service_providers (ServiceProvider.dict provider)
   else mret tt);;
  mret "Profile completed successfully".

Definition is_fixer (r : UserRole) : bool :=
  UserRole_eqb r FREELANCE_FIXER || UserRole_eqb r EMPLOYEE_FIXER.

Definition categories_value (l : list ServiceCategory) : value :=
  VList ((VStr ∘ ServiceCategory_value) <$> l).

(** [update_provider_profile] *)
Definition update_provider_profile (service_categories : list ServiceCategory)
    (hourly_rate emergency_rate : option float) (description : option string)
    (working_hours : option (list (string * value)))
    (current_user : User.t) : M string :=
  if negb (is_fixer (User.role current_user))
  then raise (HTTPException 403 "Not authorized")
  else
    provider ← find_one Service_providers "user_id" (VStr (User.id current_user));
    match provider with
    | None => raise (HTTPException 404 "Provider profile not found")
    | Some _ =>
        let update_data : doc :=
          <["service_categories" := categories_value service_categories]> (
          <["description" := opt_str description]> (
          <["availability" := VDict (default [] working_hours)]> ∅)) in
        let update_data : doc :=
          if UserRole_eqb (User.role current_user) FREELANCE_FIXER then
            let update_data :=
              match hourly_rate with
              | Some r => <["hourly_rate" := VFloat r]> update_data
              | None => update_data
              end in
            match emergency_rate with
            | Some r => <["emergency_rate" := VFloat r]> update_data
            | None => update_data
            end
          else update_data in
        update_one Service_providers "user_id" (VStr (User.id current_user))
          (Set_ update_data);;
        mret "Profile updated successfully"
    end.

(** [add_employee].  The source reads [employee["id"]] and
    [company["id"]] again at each use; the two documents are local to
    the call, so each is read once here, in the order of the first use. *)
Definition add_employee (employee_email : string)
    (hourly_rate emergency_rate : float)
    (service_categories : list ServiceCategory)
    (current_user : User.t) (uuid4 : string) (utcnow : Z) : M string :=
  if negb (UserRole_eqb (User.role current_user) COMPANY)
  then raise (HTTPException 403 "Not authorized")
  else
    company ← find_one Companies "owner_id" (VStr (User.id current_user));
    match company with
    | None => raise (HTTPException 404 "Company not found")
    | Some company =>
        employee ← find_one Users "email" (VStr employee_email);
        match employee with
        | None => raise (HTTPException 404 "Employee not found")
        | Some employee =>
            employee_id ← getitem employee "id";
            company_id ← getitem company "id";
            update_one Users "id" employee_id
              (Set_ (<["role" := VStr (UserRole_value EMPLOYEE_FIXER)]> (
                     <["company_id" := company_id]> ∅)));;
            user_id ← validate_str "user_id" employee_id;
            provider_company ← validate_opt_str "company_id" company_id;
            let provider :=
              {| ServiceProvider.id := uuid4;
                 ServiceProvider.user_id := user_id;
                 ServiceProvider.company_id := provider_company;
                 ServiceProvider.service_categories := service_categories;
                 ServiceProvider.hourly_rate := Some hourly_rate;
                 ServiceProvider.emergency_rate := Some emergency_rate;
                 ServiceProvider.description := None;
                 ServiceProvider.rating := 0%float;
                 ServiceProvider.total_jobs := 0;
                 ServiceProvider.location := None;
                 ServiceProvider.availability := [];
                 ServiceProvider.created_at := utcnow |} in
            insert_one Service_providers (ServiceProvider.dict provider);;
            update_one Companies "id" company_id (AddToSet "employees" employee_id);;
            mret "Employee added successfully"
        end
    end.

(** [create_booking]: returns [booking.dict()].  The model draws one
    identifier and two clock readings, for [created_at] and
    [updated_at]. *)
Definition create_booking (booking_data : BookingCreate) (current_user : User.t)
    (uuid4 : string) (utcnow utcnow' : Z) : M doc :=
  if negb (UserRole_eqb (User.role current_user) CUSTOMER)
  then raise (HTTPException 403 "Only customers can create bookings")
  else
    provider ← find_one Service_providers "id" (VStr (bc_provider_id booking_data));
    match provider with
    | None => raise (HTTPException 404 "Service provider not found")
    | Some provider =>
        let price := get provider "hourly_rate" (VFloat 25%float) in
        let price :=
          if bc_emergency booking_data
          then get provider "emergency_rate" (VFloat 50%float)
          else price in
        company_id ← validate_opt_str "company_id" (get provider "company_id" VNull);
        price ← validate_opt_float "price" price;
        let booking :=
          {| Booking.id := uuid4;
             Booking.customer_id := User.id current_user;
             Booking.provider_id := bc_provider_id booking_data;
             Booking.company_id := company_id;
             Booking.service_category := bc_service_category booking_data;
             Booking.description := bc_description booking_data;
             Booking.scheduled_date := bc_scheduled_date booking_data;
             Booking.status := PENDING;
             Booking.price := price;
             Booking.location := bc_location booking_data;
             Booking.emergency := bc_emergency booking_data;
             Booking.created_at := utcnow;
             Booking.updated_at := utcnow' |} in
        insert_one Bookings (Booking.dict booking);;
        mret (Booking.dict booking)
    end.

(** A booking as [get_bookings] returns it: the stored document and,
    under the keys [customer], [provider] and [provider_user], the
    documents joined to it. *)
Record enriched_booking := {
  eb_booking : doc;
  eb_customer : option doc;
  eb_provider : option doc;
  eb_provider_user : option doc
}.

Definition enrich_booking (booking : doc) : M enriched_booking :=
  customer_id ← getitem booking "customer_id";
  customer ← find_one Users "id" customer_id;
  provider_id ← getitem booking "provider_id";
  provider_data ← find_one Service_providers "id" provider_id;
  provider_user ←
    (match provider_data with
     | Some p => user_id ← getitem p "user_id"; find_one Users "id" user_id
     | None => mret None
     end);
  mret {| eb_booking := booking; eb_customer := customer;
          eb_provider := provider_data; eb_provider_user := provider_user |}.

(** [for x in l: out.append(await f(x))] *)
Fixpoint for_each {A B : Type} (f : A → M B) (l : list A) : M (list B) :=
  match l with
  | [] => mret []
  | x :: l' => y ← f x; ys ← for_each f l'; mret (y :: ys)
  end.

(** The filter document [get_bookings] builds from the caller's role. *)
Definition bookings_query (current_user : User.t) : M (option (string * value)) :=
  if UserRole_eqb (User.role current_user) CUSTOMER then
    mret (Some ("customer_id", VStr (User.id current_user)))
  else if is_fixer (User.role current_user) then
    provider ← find_one Service_providers "user_id" (VStr (User.id current_user));
    match provider with
    | Some provider =>
        provider_id ← getitem provider "id";
        mret (Some ("provider_id", provider_id))
    | None => mret None
    end
  else if UserRole_eqb (User.role current_user) COMPANY then
    company ← find_one Companies "owner_id" (VStr (User.id current_user));
    match company with
    | Some company =>
        company_id ← getitem company "id";
        mret (Some ("company_id", company_id))
    | None => mret None
    end
  else mret None.

(** [get_bookings] *)
Definition get_bookings (current_user : User.t) : M (list enriched_booking) :=
  query ← bookings_query current_user;
  bookings ← find_to_list Bookings query 100;
  for_each enrich_booking bookings.

(** [update_booking_status] *)
Definition update_booking_status (booking_id : string) (status : BookingStatus)
    (current_user : User.t) (utcnow : Z) : M string :=
  booking ← find_one Bookings "id" (VStr booking_id);
  match booking with
  | None => raise (HTTPException 404 "Booking not found")
  | Some booking =>
      (if UserRole_eqb (User.role current_user) CUSTOMER then
         customer_id ← getitem booking "customer_id";
         if negb (value_eqb customer_id (VStr (User.id current_user)))
         then raise (HTTPException 403 "Not authorized")
         else mret tt
       else if is_fixer (User.role current_user) then
         provider ← find_one Service_providers "user_id" (VStr (User.id current_user));
         match provider with
         | None => raise (HTTPException 403 "Not authorized")
         | Some provider =>
             provider_id ← getitem booking "provider_id";
             id ← getitem provider "id";
             if negb (value_eqb provider_id id)
             then raise (HTTPException 403 "Not authorized")
             else mret tt
         end
       else mret tt);;
      update_one Bookings "id" (VStr booking_id)
        (Set_ (<["status" := VStr (BookingStatus_value status)]> (
               <["updated_at" := VTime utcnow]> ∅)));;
      mret "Booking status updated successfully"
  end.

(** ** Reading the store after an update *)

(** The handler run on a store: its outcome and the store it leaves. *)
Definition result {A : Type} (m : M A) (db : DB) : outcome A := fst (m db).
Definition store {A : Type} (m : M A) (db : DB) : DB := snd (m db).

(** ** Listing providers *)

(** Python's truth value of a value, as [if x:] tests it. *)
Definition truthy (v : value) : bool :=
  match v with
  | VNull => false
  | VBool b => b
  | VInt n => negb (n =? 0)
  | VFloat f => negb (PrimFloat.eqb f 0%float)
  | VStr s => negb (String.eqb s "")
  | VTime _ => true
  | VList l => match l with [] => false | _ :: _ => true end
  | VDict d => match d with [] => false | _ :: _ => true end
  end.

(** The equality filter [{k: q}] read on a field that may hold an
    array, as [service_categories] does: the store selects a document
    when the array holds an element equal to [q], or when the field
    itself equals [q]. *)
Definition doc_matches_elem (k : string) (q : value) (d : doc) : bool :=
  match d !! k with
  | Some (VList l) => existsb (λ x, value_eqb x q) l || value_eqb (VList l) q
  | Some v => value_eqb v q
  | None => false
  end.

(** A provider as [get_service_providers] returns it: the stored
    record and, under the keys [user] and [company], the documents
    joined to it. *)
Record enriched_provider := {
  ep_provider : doc;
  ep_user : option doc;
  ep_company : option doc
}.

Definition enrich_provider (provider : doc) : M enriched_provider :=
  user_id ← getitem provider "user_id";
  user ← find_one Users "id" user_id;
  company ←
    (if truthy (get provider "company_id" VNull)
     then company_id ← getitem provider "company_id";
          find_one Companies "id" company_id
     else mret None);
  mret {| ep_provider := provider; ep_user := user; ep_company := company |}.

(** The filter [get_service_providers] builds: none, or the category
    looked for in [service_categories]. *)
Definition providers_filter (category : option ServiceCategory) (d : doc) : bool :=
  match category with
  | Some c => doc_matches_elem "service_categories" (VStr (ServiceCategory_value c)) d
  | None => true
  end.

(** [get_service_providers].  The [emergency] parameter is accepted
    and not used. *)
Definition get_service_providers (category : option ServiceCategory)
    (emergency : option bool) : M (list enriched_provider) :=
  providers ← (λ db,
    (Returned (take 100 (List.filter (providers_filter category)
                           (docs Service_providers db))), db));
  for_each enrich_provider providers.


(** ** A small marketplace

    Two customers, a freelance fixer, a company with its owner and one
    employee, the owner of another company, and two bookings.  The
    statements below are run on it. *)

Definition mk_user (id email name : string) (role : UserRole)
    (company_id : option string) : User.t :=
  {| User.id := id; User.email := email; User.name := name; User.role := role;
     User.phone := None; User.picture := None;
     User.session_token := Some ("token-" ++ id);
     User.created_at := 1000; User.company_id := company_id;
     User.address := None; User.working_hours := None;
     User.is_available := true |}.

Definition alice : User.t := mk_user "u1" "alice@example.com" "Alice" CUSTOMER None.
Definition bob : User.t := mk_user "u2" "bob@example.com" "Bob" CUSTOMER None.
Definition fred : User.t := mk_user "u3" "fred@example.com" "Fred" FREELANCE_FIXER None.
Definition erin : User.t :=
  mk_user "u4" "erin@example.com" "Erin" EMPLOYEE_FIXER (Some "c1").
Definition carol : User.t := mk_user "u5" "carol@example.com" "Carol" COMPANY None.
Definition dave : User.t := mk_user "u6" "dave@example.com" "Dave" COMPANY None.
(** A fixer by role for whom no provider record is stored. *)
Definition gina : User.t := mk_user "u7" "gina@example.com" "Gina" FREELANCE_FIXER None.

Definition mk_provider (id user_id : string) (company_id : option string)
    (hourly_rate emergency_rate : option float) : ServiceProvider.t :=
  {| ServiceProvider.id := id; ServiceProvider.user_id := user_id;
     ServiceProvider.company_id := company_id;
     ServiceProvider.service_categories := [PLUMBING];
     ServiceProvider.hourly_rate := hourly_rate;
     ServiceProvider.emergency_rate := emergency_rate;
     ServiceProvider.description := None;
     ServiceProvider.rating := 0%float; ServiceProvider.total_jobs := 0;
     ServiceProvider.location := None; ServiceProvider.availability := [];
     ServiceProvider.created_at := 1000 |}.

Definition fred_provider : doc :=
  ServiceProvider.dict (mk_provider "p1" "u3" None (Some 30%float) (Some 60%float)).
Definition erin_provider : doc :=
  ServiceProvider.dict (mk_provider "p2" "u4" (Some "c1") (Some 20%float) (Some 40%float)).

Definition carol_company : doc :=
  Company.dict
    {| Company.id := "c1"; Company.name := "Carol's Company";
       Company.owner_id := "u5"; Company.email := "carol@example.com";
       Company.phone := ""; Company.address := ""; Company.description := None;
       Company.service_categories := []; Company.employees := ["u4"];
       Company.created_at := 1000 |}.

Definition dave_company : doc :=
  Company.dict
    {| Company.id := "c2"; Company.name := "Dave's Company";
       Company.owner_id := "u6"; Company.email := "dave@example.com";
       Company.phone := ""; Company.address := ""; Company.description := None;
       Company.service_categories := []; Company.employees := [];
       Company.created_at := 1000 |}.

Definition mk_booking (id customer_id provider_id : string)
    (company_id : option string) (price : option float) : Booking.t :=
  {| Booking.id := id; Booking.customer_id := customer_id;
     Booking.provider_id := provider_id; Booking.company_id := company_id;
     Booking.service_category := PLUMBING; Booking.description := "leak";
     Booking.scheduled_date := 2000; Booking.status := PENDING;
     Booking.price := price; Booking.location := [];
     Booking.emergency := false; Booking.created_at := 1500;
     Booking.updated_at := 1500 |}.

Definition booking1 : doc :=
  Booking.dict (mk_booking "b1" "u1" "p1" None (Some 30%float)).
Definition booking2 : doc :=
  Booking.dict (mk_booking "b2" "u2" "p2" (Some "c1") (Some 20%float)).

Definition market : DB :=
  {| users := User.dict <$> [alice; bob; fred; erin; carol; dave; gina];
     companies := [carol_company; dave_company];
     service_providers := [fred_provider; erin_provider];
     bookings := [booking1; booking2] |}.

(** ** Shapes of stored values *)

(** A value a field declared [Optional[str]] holds. *)
Definition is_opt_str (v : value) : Prop := v = VNull ∨ ∃ s, v = VStr s.

(** A value a field declared [Optional[float]] holds. *)
Definition is_opt_float (v : value) : Prop := v = VNull ∨ ∃ f, v = VFloat f.

(** The rate [create_booking] prices a booking at. *)
Definition rate_key (emergency : bool) : string :=
  if emergency then "emergency_rate" else "hourly_rate".

Definition default_rate (emergency : bool) : float :=
  if emergency then 50%float else 25%float.

Definition plumbing_job (provider_id : string) (emergency : bool) : BookingCreate :=
  {| bc_provider_id := provider_id; bc_service_category := PLUMBING;
     bc_description := "leak"; bc_scheduled_date := 2000; bc_location := [];
     bc_emergency := emergency |}.

(** The market with a third provider record [p3] that has no
    [hourly_rate] and no [emergency_rate] field. *)
Definition market_unset_rates : DB :=
  set_docs Service_providers
    (service_providers market
     ++ [delete "hourly_rate" (delete "emergency_rate"
           (ServiceProvider.dict (mk_provider "p3" "u7" None None None)))])
    market.

(** The booking Alice gets when she books Fred at his hourly rate. *)
Definition alice_books_fred : doc :=
  Booking.dict
    {| Booking.id := "b3"; Booking.customer_id := "u1";
       Booking.provider_id := "p1"; Booking.company_id := None;
       Booking.service_category := PLUMBING; Booking.description := "leak";
       Booking.scheduled_date := 2000; Booking.status := PENDING;
       Booking.price := Some 30%float; Booking.location := [];
       Booking.emergency := false; Booking.created_at := 2500;
       Booking.updated_at := 2501 |}.

(** ** Statement vocabulary *)

(** Two versions of a booking that agree on every field other than
    [status] and [updated_at]. *)
Definition same_but_status (b b' : doc) : Prop :=
  ∀ k : string, k ≠ "status" → k ≠ "updated_at" → b' !! k = b !! k.

(** Two versions of a provider record with the same rates. *)
Definition same_rates (p p' : doc) : Prop :=
  p' !! "hourly_rate" = p !! "hourly_rate"
  ∧ p' !! "emergency_rate" = p !! "emergency_rate".

(** The role stored for the first user with the given id. *)
Definition stored_role (user_id : string) (db : DB) : option value :=
  d ← List.find (doc_matches "id" (VStr user_id)) (users db); d !! "role".

(** The fields [update_provider_profile] always writes. *)
Definition profile_fields (service_categories : list ServiceCategory)
    (description : option string)
    (working_hours : option (list (string * value))) : doc :=
  <["service_categories" := categories_value service_categories]> (
  <["description" := opt_str description]> (
  <["availability" := VDict (default [] working_hours)]> ∅)).

(** A booking that [get_bookings] can enrich holds the two ids it is
    joined on, and a provider record the id of its user. *)
Definition joinable_booking (b : doc) : Prop :=
  is_Some (b !! "customer_id") ∧ is_Some (b !! "provider_id").

Definition joinable_provider (p : doc) : Prop := is_Some (p !! "user_id").

(** The filter [get_bookings] is meant to apply for a caller: the key
    and the id its role is scoped by. *)
Definition booking_scope (current_user : User.t) (db : DB) (key : string)
    (q : value) : Prop :=
  (User.role current_user = CUSTOMER
   ∧ key = "customer_id" ∧ q = VStr (User.id current_user))
  ∨ (is_fixer (User.role current_user) = true
     ∧ key = "provider_id"
     ∧ ∃ p, List.find (doc_matches "user_id" (VStr (User.id current_user)))
              (service_providers db) = Some p
            ∧ p !! "id" = Some q)
  ∨ (User.role current_user = COMPANY
     ∧ key = "company_id"
     ∧ ∃ c, List.find (doc_matches "owner_id" (VStr (User.id current_user)))
              (companies db) = Some c
            ∧ c !! "id" = Some q).

(** The market after Alice has made 101 bookings. *)
Definition crowded_market : DB :=
  set_docs Bookings (replicate 101 booking1) market.

(** The callers the authorization check of [update_booking_status] lets
    through, as the code has it: the customer whose id the booking
    holds, a fixer whose provider record has the id the booking holds,
    and every caller with the role [company]. *)
Definition passes_check (current_user : User.t) (booking : doc) (db : DB) : Prop :=
  (User.role current_user = CUSTOMER
   ∧ booking !! "customer_id" = Some (VStr (User.id current_user)))
  ∨ (is_fixer (User.role current_user) = true
     ∧ ∃ provider provider_id id,
         List.find (doc_matches "user_id" (VStr (User.id current_user)))
           (service_providers db) = Some provider
         ∧ booking !! "provider_id" = Some provider_id
         ∧ provider !! "id" = Some id
         ∧ value_eqb provider_id id = true)
  ∨ User.role current_user = COMPANY.

(** An enriched booking whose three joined documents are those the
    store holds for the ids in the booking: the first user with the
    booking's [customer_id], the first provider record with its
    [provider_id], and the first user with that record's [user_id]. *)
Definition joined (db : DB) (e : enriched_booking) : Prop :=
  ∃ customer_id provider_id,
    eb_booking e !! "customer_id" = Some customer_id
    ∧ eb_customer e = List.find (doc_matches "id" customer_id) (users db)
    ∧ eb_booking e !! "provider_id" = Some provider_id
    ∧ eb_provider e = List.find (doc_matches "id" provider_id) (service_providers db)
    ∧ match eb_provider e with
      | Some p =>
          ∃ user_id, p !! "user_id" = Some user_id
                     ∧ eb_provider_user e
                       = List.find (doc_matches "id" user_id) (users db)
      | None => eb_provider_user e = None
      end.

(** What [add_employee] writes into the employee's user document. *)
Definition employee_fields (company_id : value) : doc :=
  <["role" := VStr (UserRole_value EMPLOYEE_FIXER)]> (
  <["company_id" := company_id]> ∅).

(** The provider record [add_employee] inserts. *)
Definition employee_provider (uuid4 user_id company_id : string)
    (service_categories : list ServiceCategory)
    (hourly_rate emergency_rate : float) (utcnow : Z) : doc :=
  ServiceProvider.dict
    {| ServiceProvider.id := uuid4;
       ServiceProvider.user_id := user_id;
       ServiceProvider.company_id := Some company_id;
       ServiceProvider.service_categories := service_categories;
       ServiceProvider.hourly_rate := Some hourly_rate;
       ServiceProvider.emergency_rate := Some emergency_rate;
       ServiceProvider.description := None;
       ServiceProvider.rating := 0%float;
       ServiceProvider.total_jobs := 0;
       ServiceProvider.location := None;
       ServiceProvider.availability := [];
       ServiceProvider.created_at := utcnow |}.

(** The owner of a company that was never stored. *)
Definition heidi : User.t := mk_user "u8" "heidi@example.com" "Heidi" COMPANY None.

(** The market with the [employees] field of Carol's company holding a
    string instead of an array. *)
Definition market_bad_employees : DB :=
  set_docs Companies
    [<["employees" := VStr "u4"]> carol_company; dave_company] market.



(** What the auth service sends for a session. *)
Definition session_data (email name session_token : string) : doc :=
  <["email" := VStr email]> (
  <["name" := VStr name]> (
  <["session_token" := VStr session_token]> ∅)).

(** The market with one more user document, which has lost its [name]
    field. *)
Definition market_nameless : DB :=
  set_docs Users
    (users market
     ++ [delete "name"
           (User.dict (mk_user "u9" "ivan@example.com" "Ivan" CUSTOMER None))])
    market.


(** Two versions of a provider record that agree outside the fields
    [update_provider_profile] can write. *)
Definition same_but_provider_profile (p p' : doc) : Prop :=
  ∀ k : string,
    k ≠ "service_categories" → k ≠ "description" → k ≠ "availability" →
    k ≠ "hourly_rate" → k ≠ "emergency_rate" → p' !! k = p !! k.

(** A provider record that offers a category: its [service_categories]
    field is an array that holds the category's name, or is that name
    itself. *)
Definition offers (c : ServiceCategory) (p : doc) : Prop :=
  p !! "service_categories" = Some (VStr (ServiceCategory_value c))
  ∨ ∃ l, p !! "service_categories" = Some (VList l)
         ∧ VStr (ServiceCategory_value c) ∈ l.

(** An enriched provider whose joined documents are those the store
    holds: the first user with the record's [user_id] and, when the
    record's [company_id] is truthy, the first company with that id. *)
Definition joined_provider (db : DB) (e : enriched_provider) : Prop :=
  (∃ user_id, ep_provider e !! "user_id" = Some user_id
              ∧ ep_user e = List.find (doc_matches "id" user_id) (users db))
  ∧ ep_company e
    = if truthy (default VNull (ep_provider e !! "company_id"))
      then List.find (doc_matches "id" (default VNull (ep_provider e !! "company_id")))
             (companies db)
      else None.

(** * Properties *)

(** ** Running a handler *)

(** Unfolds the monad so that a handler applied to a store reduces to
    its outcome. *)
Ltac run_handler :=
  unfold result, store;
  repeat (unfold mbind, M_bind, mret, M_ret, raise, try_except, getitem,
            find_one, find_to_list, insert_one, update_one; simpl).


(** ** Values, filters and updates *)

Lemma value_eqb_str_l (s : string) (v : value) :
  value_eqb (VStr s) v = true ↔ v = VStr s.
Proof.
  destruct v; simpl; try (split; [discriminate | congruence]).
  rewrite String.eqb_eq. split; congruence.
Qed.

Lemma value_eqb_str_r (v : value) (s : string) :
  value_eqb v (VStr s) = true ↔ v = VStr s.
Proof.
  destruct v; simpl; try (split; [discriminate | congruence]).
  rewrite String.eqb_eq. split; congruence.
Qed.

Lemma value_eqb_str_refl (s : string) : value_eqb (VStr s) (VStr s) = true.
Proof. by apply value_eqb_str_l. Qed.

Lemma doc_matches_str (k s : string) (d : doc) :
  doc_matches k (VStr s) d = true ↔ d !! k = Some (VStr s).
Proof.
  unfold doc_matches. destruct (d !! k) as [v|]; [|split; discriminate].
  rewrite value_eqb_str_r. split; congruence.
Qed.

Lemma alter_first_length (p : doc → bool) (g : doc → doc) (l : list doc) :
  length (alter_first p g l) = length l.
Proof. induction l as [|d l IH]; simpl; [done|]. destruct (p d); simpl; congruence. Qed.

(** Each document of the list is kept or replaced by its image, in
    place. *)
Lemma alter_first_Forall2 (R : doc → doc → Prop) (p : doc → bool)
    (g : doc → doc) (l : list doc) :
  (∀ d, R d d) → (∀ d, p d = true → R d (g d)) →
  Forall2 R l (alter_first p g l).
Proof.
  intros Hrefl Hg. induction l as [|d l IH]; simpl; [constructor|].
  destruct (p d) eqn:Hp.
  - constructor; [by apply Hg|]. by apply Forall2_same_length_lookup_2; [|intros; simplify_eq].
  - constructor; [apply Hrefl | apply IH].
Qed.

Lemma set_status_same_but_status (b : doc) (s t : value) :
  same_but_status b
    (set_fields (<["status" := s]> (<["updated_at" := t]> ∅)) b).
Proof.
  intros k Hs Hu. unfold set_fields. rewrite lookup_union_r; [done|].
  by rewrite !lookup_insert_ne, lookup_empty.
Qed.

(** ** [update_booking_status] *)

(** C10.  A call of [update_booking_status] that returns leaves every
    stored booking in its place with every field other than [status]
    and [updated_at] as it was ([customer_id], [provider_id],
    [company_id], [service_category], [description], [scheduled_date],
    [price], [location], [emergency] and [created_at] among them), and
    writes to no other collection; a call that raises, with status 404,
    403 or otherwise, leaves the whole store as it was. *)
Theorem update_booking_status_frame (booking_id : string)
    (status : BookingStatus) (current_user : User.t) (utcnow : Z) (db : DB) :
  match update_booking_status booking_id status current_user utcnow db with
  | (Returned _, db') =>
      Forall2 same_but_status (bookings db) (bookings db')
      ∧ users db' = users db
      ∧ companies db' = companies db
      ∧ service_providers db' = service_providers db
  | (Raised _, db') => db' = db
  end.
Proof.
  unfold update_booking_status. run_handler.
  repeat case_match; simplify_eq; try done.
  all: simpl; split_and!; try done.
  all: apply alter_first_Forall2; [done | intros; apply set_status_same_but_status].
Qed.

Lemma value_eqb_str_neq (v : value) (s : string) :
  v ≠ VStr s → value_eqb v (VStr s) = false.
Proof.
  intros Hne. destruct (value_eqb v (VStr s)) eqn:He; [|done].
  by apply value_eqb_str_r in He.
Qed.

(** With no booking of the given id the call answers 404 and writes
    nothing, whoever calls. *)
Lemma update_booking_status_not_found (booking_id : string)
    (status : BookingStatus) (current_user : User.t) (utcnow : Z) (db : DB) :
  List.find (doc_matches "id" (VStr booking_id)) (bookings db) = None →
  update_booking_status booking_id status current_user utcnow db
  = (Raised (HTTPException 404 "Booking not found"), db).
Proof. intros Hf. unfold update_booking_status. run_handler. by rewrite Hf. Qed.

(** A customer is refused on a booking that holds another customer's
    id. *)
Lemma update_booking_status_customer_forbidden (booking_id : string)
    (status : BookingStatus) (current_user : User.t) (utcnow : Z) (db : DB)
    (booking : doc) (customer_id : value) :
  List.find (doc_matches "id" (VStr booking_id)) (bookings db) = Some booking →
  User.role current_user = CUSTOMER →
  booking !! "customer_id" = Some customer_id →
  customer_id ≠ VStr (User.id current_user) →
  update_booking_status booking_id status current_user utcnow db
  = (Raised (HTTPException 403 "Not authorized"), db).
Proof.
  intros Hf Hr Hc Hne. unfold update_booking_status. run_handler.
  by rewrite Hf, Hr, Hc; simpl; rewrite (value_eqb_str_neq _ _ Hne).
Qed.

(** A fixer with no provider record is refused on every booking. *)
Lemma update_booking_status_fixer_no_provider (booking_id : string)
    (status : BookingStatus) (current_user : User.t) (utcnow : Z) (db : DB)
    (booking : doc) :
  List.find (doc_matches "id" (VStr booking_id)) (bookings db) = Some booking →
  is_fixer (User.role current_user) = true →
  List.find (doc_matches "user_id" (VStr (User.id current_user)))
    (service_providers db) = None →
  update_booking_status booking_id status current_user utcnow db
  = (Raised (HTTPException 403 "Not authorized"), db).
Proof.
  intros Hf Hr Hp. unfold update_booking_status. run_handler.
  rewrite Hf. destruct (User.role current_user); try discriminate; simpl.
  all: by rewrite Hp.
Qed.

(** A fixer is refused on a booking that holds the id of another
    provider record than the fixer's. *)
Lemma update_booking_status_fixer_other_provider (booking_id : string)
    (status : BookingStatus) (current_user : User.t) (utcnow : Z) (db : DB)
    (booking provider : doc) (provider_id id : value) :
  List.find (doc_matches "id" (VStr booking_id)) (bookings db) = Some booking →
  is_fixer (User.role current_user) = true →
  List.find (doc_matches "user_id" (VStr (User.id current_user)))
    (service_providers db) = Some provider →
  booking !! "provider_id" = Some provider_id →
  provider !! "id" = Some id →
  value_eqb provider_id id = false →
  update_booking_status booking_id status current_user utcnow db
  = (Raised (HTTPException 403 "Not authorized"), db).
Proof.
  intros Hf Hr Hp Hb Hi Hne. unfold update_booking_status. run_handler.
  rewrite Hf. destruct (User.role current_user); try discriminate; simpl.
  all: by rewrite Hp, Hb, Hi; simpl; rewrite Hne.
Qed.

(** The authorization check has no branch for the role [company]: such
    a caller passes it on every booking that exists. *)
Lemma update_booking_status_company (booking_id : string)
    (status : BookingStatus) (current_user : User.t) (utcnow : Z) (db : DB)
    (booking : doc) :
  List.find (doc_matches "id" (VStr booking_id)) (bookings db) = Some booking →
  User.role current_user = COMPANY →
  update_booking_status booking_id status current_user utcnow db
  = (Returned "Booking status updated successfully",
     set_docs Bookings
       (alter_first (doc_matches "id" (VStr booking_id))
          (set_fields (<["status" := VStr (BookingStatus_value status)]> (
                       <["updated_at" := VTime utcnow]> ∅)))
          (bookings db)) db).
Proof.
  intros Hf Hr. unfold update_booking_status. run_handler.
  by rewrite Hf, Hr.
Qed.

(** C1.  The owner of a company that has no part in a booking (booking
    [b1] is Alice's, with the freelance fixer Fred) sets its status to
    [cancelled]: the call returns and the stored booking is changed,
    where the authorization rule for the customer and the provider
    would answer 403. *)
Theorem update_booking_status_company_unrelated :
  update_booking_status "b1" CANCELLED dave 3000 market
  = (Returned "Booking status updated successfully",
     {| users := users market; companies := companies market;
        service_providers := service_providers market;
        bookings :=
          [ <["status" := VStr "cancelled"]> (<["updated_at" := VTime 3000]> booking1);
            booking2 ] |}).
Proof. reflexivity. Qed.

(** ** [create_booking] *)

Lemma opt_str_validated (field : string) (v : value) (o : option string) (db db' : DB) :
  validate_opt_str field v db = (Returned o, db') → opt_str o = v ∧ db' = db.
Proof. destruct v; simpl; intros H; inversion H; by subst. Qed.

Lemma opt_float_validated (field : string) (v : value) (o : option float) (db db' : DB) :
  validate_opt_float field v db = (Returned o, db') → opt_float o = v ∧ db' = db.
Proof. destruct v; simpl; intros H; inversion H; by subst. Qed.

Lemma validate_opt_str_raised (field : string) (v : value) (e : exn) (db db' : DB) :
  validate_opt_str field v db = (Raised e, db') → db' = db.
Proof. destruct v; simpl; intros H; inversion H; by subst. Qed.

Lemma validate_opt_float_raised (field : string) (v : value) (e : exn) (db db' : DB) :
  validate_opt_float field v db = (Raised e, db') → db' = db.
Proof. destruct v; simpl; intros H; inversion H; by subst. Qed.

Lemma validate_opt_str_ok (field : string) (v : value) (db : DB) :
  is_opt_str v → ∃ o, validate_opt_str field v db = (Returned o, db).
Proof. intros [->|[s ->]]; simpl; eauto. Qed.

Lemma validate_opt_float_ok (field : string) (v : value) (db : DB) :
  is_opt_float v → ∃ o, validate_opt_float field v db = (Returned o, db).
Proof. intros [->|[f ->]]; simpl; eauto. Qed.

(** What a call that returns has done, in one statement the claims
    about [create_booking] are read from. *)
Lemma create_booking_returned (booking_data : BookingCreate)
    (current_user : User.t) (uuid4 : string) (utcnow utcnow' : Z)
    (db db' : DB) (b : doc) :
  create_booking booking_data current_user uuid4 utcnow utcnow' db = (Returned b, db') →
  ∃ (provider : doc) (company_id : option string) (price : option float),
    User.role current_user = CUSTOMER
    ∧ List.find (doc_matches "id" (VStr (bc_provider_id booking_data)))
        (service_providers db) = Some provider
    ∧ opt_str company_id = get provider "company_id" VNull
    ∧ opt_float price
      = get provider (rate_key (bc_emergency booking_data))
          (VFloat (default_rate (bc_emergency booking_data)))
    ∧ b = Booking.dict
            {| Booking.id := uuid4;
               Booking.customer_id := User.id current_user;
               Booking.provider_id := bc_provider_id booking_data;
               Booking.company_id := company_id;
               Booking.service_category := bc_service_category booking_data;
               Booking.description := bc_description booking_data;
               Booking.scheduled_date := bc_scheduled_date booking_data;
               Booking.status := PENDING;
               Booking.price := price;
               Booking.location := bc_location booking_data;
               Booking.emergency := bc_emergency booking_data;
               Booking.created_at := utcnow;
               Booking.updated_at := utcnow' |}
    ∧ db' = set_docs Bookings (bookings db ++ [b]) db.
Proof.
  unfold create_booking. run_handler. intros H.
  destruct (User.role current_user) eqn:Hr; simpl in H; try discriminate.
  destruct (List.find _ (service_providers db)) as [provider|] eqn:Hf;
    [|discriminate].
  destruct (validate_opt_str _ _ db) as [[company_id|e] db1] eqn:Hc;
    [|discriminate].
  apply opt_str_validated in Hc as [Hc ->].
  destruct (validate_opt_float _ _ db) as [[price|e] db1] eqn:Hp;
    [|discriminate].
  apply opt_float_validated in Hp as [Hp ->].
  simplify_eq. exists provider, company_id, price.
  split_and!; try done.
  rewrite Hp. unfold rate_key, default_rate. by destruct (bc_emergency booking_data).
Qed.

Lemma create_booking_raised (booking_data : BookingCreate)
    (current_user : User.t) (uuid4 : string) (utcnow utcnow' : Z)
    (db db' : DB) (e : exn) :
  create_booking booking_data current_user uuid4 utcnow utcnow' db = (Raised e, db') →
  db' = db.
Proof.
  unfold create_booking. run_handler. intros H.
  destruct (User.role current_user); simpl in H; try by inversion H.
  destruct (List.find _ (service_providers db)) as [provider|]; [|by inversion H].
  destruct (validate_opt_str _ _ db) as [[company_id|e1] db1] eqn:Hc.
  - apply opt_str_validated in Hc as [_ ->].
    destruct (validate_opt_float _ _ db) as [[price|e2] db1] eqn:Hp.
    + apply opt_float_validated in Hp as [_ ->]. by inversion H.
    + apply validate_opt_float_raised in Hp as ->. by inversion H.
  - apply validate_opt_str_raised in Hc as ->. by inversion H.
Qed.

(** C7.  [create_booking] answers 403 to a caller whose role is not
    [customer] and, for a customer, 404 when no provider has the given
    id; a call that returns has appended exactly the returned booking,
    whose status is [pending] and whose [company_id] is that of the
    provider; a call that raises has written nothing; and a customer's
    call for a stored provider with well-formed fields does return. *)
Theorem create_booking_outcomes (booking_data : BookingCreate)
    (current_user : User.t) (uuid4 : string) (utcnow utcnow' : Z) (db : DB) :
  let run := create_booking booking_data current_user uuid4 utcnow utcnow' db in
  let found :=
    List.find (doc_matches "id" (VStr (bc_provider_id booking_data)))
      (service_providers db) in
  (User.role current_user ≠ CUSTOMER →
     run = (Raised (HTTPException 403 "Only customers can create bookings"), db))
  ∧ (User.role current_user = CUSTOMER → found = None →
     run = (Raised (HTTPException 404 "Service provider not found"), db))
  ∧ (∀ b db', run = (Returned b, db') →
       bookings db' = (bookings db ++ [b])%list
       ∧ b !! "status" = Some (VStr "pending")
       ∧ ∃ provider, found = Some provider
           ∧ b !! "company_id" = Some (default VNull (provider !! "company_id")))
  ∧ (∀ e db', run = (Raised e, db') → db' = db)
  ∧ (∀ provider, User.role current_user = CUSTOMER → found = Some provider →
       is_opt_str (default VNull (provider !! "company_id")) →
       is_opt_float (get provider (rate_key (bc_emergency booking_data))
                       (VFloat (default_rate (bc_emergency booking_data)))) →
       ∃ b, run = (Returned b, set_docs Bookings (bookings db ++ [b]) db)).
Proof.
  intros run found. split_and!.
  - intros Hr. subst run. unfold create_booking.
    by destruct (User.role current_user).
  - intros Hr Hf. subst run found. unfold create_booking. run_handler.
    rewrite Hr. simpl. by rewrite Hf.
  - intros b db' H. subst run found.
    apply create_booking_returned in H
      as (provider & company_id & price & Hr & Hf & Hc & Hp & -> & ->).
    split_and!; [done | reflexivity |].
    exists provider. split; [done|]. unfold get in Hc. rewrite <- Hc.
    reflexivity.
  - intros e db'. apply create_booking_raised.
  - intros provider Hr Hf Hc Hp. subst run found.
    unfold create_booking. run_handler. rewrite Hr. simpl. rewrite Hf.
    destruct (validate_opt_str_ok "company_id" _ db Hc) as [c Hc'].
    unfold get. rewrite Hc'.
    assert (is_opt_float
              (if bc_emergency booking_data
               then default (VFloat 50) (provider !! "emergency_rate")
               else default (VFloat 25) (provider !! "hourly_rate"))) as Hp'.
    { unfold rate_key, default_rate, get in Hp.
      by destruct (bc_emergency booking_data). }
    destruct (validate_opt_float_ok "price" _ db Hp') as [p Hp''].
    rewrite Hp''. eauto.
Qed.

(** Alice books Erin, an employee of company [c1]: the call returns
    and the booking carries the company's id. *)
Lemma create_booking_outcomes_witness :
  ∃ b, create_booking (plumbing_job "p2" false) alice "b3" 2500 2501 market
       = (Returned b, set_docs Bookings (bookings market ++ [b]) market).
Proof.
  apply (proj2 (proj2 (proj2 (proj2
    (create_booking_outcomes (plumbing_job "p2" false) alice "b3" 2500 2501 market))))
    erin_provider).
  - reflexivity.
  - reflexivity.
  - right. exists "c1". reflexivity.
  - right. exists 20%float. reflexivity.
Defined.

(** C2.  The price stored with a created booking is the value the
    provider's document holds under [emergency_rate] for an emergency
    booking and under [hourly_rate] otherwise; when the document has no
    such field it is 50.0, respectively 25.0. *)
Theorem create_booking_price (booking_data : BookingCreate)
    (current_user : User.t) (uuid4 : string) (utcnow utcnow' : Z)
    (db db' : DB) (b : doc) :
  create_booking booking_data current_user uuid4 utcnow utcnow' db = (Returned b, db') →
  ∃ provider,
    List.find (doc_matches "id" (VStr (bc_provider_id booking_data)))
      (service_providers db) = Some provider
    ∧ last (bookings db') = Some b
    ∧ (bc_emergency booking_data = true →
       b !! "price" = Some (match provider !! "emergency_rate" with
                            | Some rate => rate
                            | None => VFloat 50%float
                            end))
    ∧ (bc_emergency booking_data = false →
       b !! "price" = Some (match provider !! "hourly_rate" with
                            | Some rate => rate
                            | None => VFloat 25%float
                            end)).
Proof.
  intros H.
  apply create_booking_returned in H
    as (provider & company_id & price & Hr & Hf & Hc & Hp & -> & ->).
  exists provider. split_and!; [done | by simpl; rewrite last_snoc | |].
  - intros He. rewrite He in Hp. simpl in Hp. unfold get in Hp.
    change (Some (opt_float price) = Some (default (VFloat 50) (provider !! "emergency_rate"))).
    by rewrite Hp.
  - intros He. rewrite He in Hp. simpl in Hp. unfold get in Hp.
    change (Some (opt_float price) = Some (default (VFloat 25) (provider !! "hourly_rate"))).
    by rewrite Hp.
Qed.

(** Alice books Fred, whose hourly rate is 30.0. *)
Lemma create_booking_price_witness :
  create_booking (plumbing_job "p1" false) alice "b3" 2500 2501 market
  = (Returned alice_books_fred,
     set_docs Bookings (bookings market ++ [alice_books_fred]) market)
  ∧ ∃ provider,
      List.find (doc_matches "id" (VStr "p1")) (service_providers market)
      = Some provider
      ∧ last (bookings market ++ [alice_books_fred]) = Some alice_books_fred
      ∧ (false = true →
         alice_books_fred !! "price"
         = Some (match provider !! "emergency_rate" with
                 | Some rate => rate
                 | None => VFloat 50%float
                 end))
      ∧ (false = false →
         alice_books_fred !! "price"
         = Some (match provider !! "hourly_rate" with
                 | Some rate => rate
                 | None => VFloat 25%float
                 end)).
Proof.
  split; [reflexivity|].
  apply (create_booking_price (plumbing_job "p1" false) alice "b3" 2500 2501 market
           (set_docs Bookings (bookings market ++ [alice_books_fred]) market)
           alice_books_fred).
  reflexivity.
Defined.

Example create_booking_hourly :
  (fst (create_booking (plumbing_job "p1" false) alice "b3" 2500 2501 market))
  = Returned alice_books_fred
  ∧ alice_books_fred !! "price" = Some (VFloat 30%float)
  ∧ alice_books_fred !! "status" = Some (VStr "pending").
Proof. split_and!; reflexivity. Qed.

Example create_booking_emergency :
  ∃ b, fst (create_booking (plumbing_job "p1" true) alice "b3" 2500 2501 market)
       = Returned b
       ∧ b !! "price" = Some (VFloat 60%float).
Proof. eexists. split; reflexivity. Qed.

(** With no rate field in the provider's document the defaults apply. *)
Example create_booking_unset_rates :
  (∃ b, fst (create_booking (plumbing_job "p3" false) alice "b3" 2500 2501
               market_unset_rates) = Returned b
        ∧ b !! "price" = Some (VFloat 25%float))
  ∧ (∃ b, fst (create_booking (plumbing_job "p3" true) alice "b3" 2500 2501
                 market_unset_rates) = Returned b
          ∧ b !! "price" = Some (VFloat 50%float)).
Proof. split; eexists; split; reflexivity. Qed.

(** A rate field that is present and holds [null] is a value like any
    other to [dict.get]: the booking is priced at [null]. *)
Example create_booking_null_rate :
  let db :=
    set_docs Service_providers
      [ServiceProvider.dict (mk_provider "p4" "u7" None None None)] market in
  ∃ b, fst (create_booking (plumbing_job "p4" false) alice "b3" 2500 2501 db)
       = Returned b
       ∧ b !! "price" = Some VNull.
Proof. eexists. split; reflexivity. Qed.

(** ** [complete_profile] *)

(** C4.  A call of [complete_profile] always returns; with the role
    [company] it appends exactly one company, owned by the caller, and
    no provider; with the role [freelance_fixer] it appends exactly one
    provider record, the caller's, with rates 25.0 and 50.0, and no
    company; with any other role it appends neither. *)
Theorem complete_profile_creates (role : UserRole) (phone address : option string)
    (current_user : User.t) (uuid4 : string) (utcnow : Z) (db : DB) :
  let run := complete_profile role phone address current_user uuid4 utcnow in
  result run db = Returned "Profile completed successfully"
  ∧ bookings (store run db) = bookings db
  ∧ match role with
    | COMPANY =>
        (∃ c, companies (store run db) = (companies db ++ [c])%list
              ∧ c !! "owner_id" = Some (VStr (User.id current_user)))
        ∧ service_providers (store run db) = service_providers db
    | FREELANCE_FIXER =>
        (∃ p, service_providers (store run db) = (service_providers db ++ [p])%list
              ∧ p !! "user_id" = Some (VStr (User.id current_user))
              ∧ p !! "hourly_rate" = Some (VFloat 25%float)
              ∧ p !! "emergency_rate" = Some (VFloat 50%float))
        ∧ companies (store run db) = companies db
    | CUSTOMER | EMPLOYEE_FIXER =>
        companies (store run db) = companies db
        ∧ service_providers (store run db) = service_providers db
    end.
Proof.
  intros run. subst run. unfold complete_profile.
  destruct role; run_handler; split_and!; try done.
  - eexists. split; [done|]. repeat split; reflexivity.
  - eexists. split; [done|]. repeat split; reflexivity.
Qed.

Lemma find_alter_first (p : doc → bool) (g : doc → doc) (l : list doc) :
  (∀ d, p d = true → p (g d) = true) →
  List.find p (alter_first p g l) = g <$> List.find p l.
Proof.
  intros Hg. induction l as [|d l IH]; simpl; [done|].
  destruct (p d) eqn:Hp; simpl.
  - by rewrite (Hg d Hp).
  - by rewrite Hp.
Qed.

(** [$set] on fields other than [k] keeps the verdict of a filter on
    [k]. *)
Lemma doc_matches_set_fields (k : string) (q : value) (fields d : doc) :
  fields !! k = None →
  doc_matches k q (set_fields fields d) = doc_matches k q d.
Proof.
  intros Hk. unfold doc_matches, set_fields. by rewrite lookup_union_r.
Qed.

Lemma set_fields_lookup (k : string) (v : value) (fields d : doc) :
  fields !! k = Some v → set_fields fields d !! k = Some v.
Proof. intros Hk. unfold set_fields. by apply lookup_union_Some_l. Qed.

(** C8, as the code has it.  Whenever a user with the caller's id is
    stored, a call of [complete_profile] leaves that user's stored role
    equal to the role passed, whatever it was before: each call sets
    the role anew. *)
Theorem complete_profile_sets_role (role : UserRole)
    (phone address : option string) (current_user : User.t) (uuid4 : string)
    (utcnow : Z) (db : DB) :
  is_Some (List.find (doc_matches "id" (VStr (User.id current_user))) (users db)) →
  stored_role (User.id current_user)
    (store (complete_profile role phone address current_user uuid4 utcnow) db)
  = Some (VStr (UserRole_value role)).
Proof.
  intros [d Hd].
  assert (users (store (complete_profile role phone address current_user uuid4 utcnow) db)
          = alter_first (doc_matches "id" (VStr (User.id current_user)))
              (set_fields (<["role" := VStr (UserRole_value role)]> (
                           <["phone" := opt_str phone]> (
                           <["address" := opt_str address]> ∅))))
              (users db)) as Hu.
  { unfold complete_profile. by destruct role; run_handler. }
  unfold stored_role. rewrite Hu, find_alter_first, Hd.
  - simpl. apply set_fields_lookup. by rewrite lookup_insert_eq.
  - intros d' Hd'. by rewrite doc_matches_set_fields.
Qed.

(** Alice, stored in the market as a customer, completes her profile
    as a freelance fixer. *)
Lemma complete_profile_sets_role_witness :
  stored_role "u1"
    (store (complete_profile FREELANCE_FIXER None None alice "p9" 3000) market)
  = Some (VStr "freelance_fixer").
Proof.
  apply (complete_profile_sets_role FREELANCE_FIXER None None alice "p9" 3000 market).
  by eexists.
Defined.

(** C8, as stated, fails: after Alice has completed her profile as a
    freelance fixer, a later completion with the role [company] changes
    her stored role again. *)
Lemma complete_profile_role_not_fixed :
  let db1 := store (complete_profile FREELANCE_FIXER None None alice "p9" 3000) market in
  let db2 := store (complete_profile COMPANY None None alice "c9" 4000) db1 in
  stored_role "u1" db1 = Some (VStr "freelance_fixer")
  ∧ stored_role "u1" db2 = Some (VStr "company")
  ∧ stored_role "u1" db2 ≠ stored_role "u1" db1.
Proof.
  split_and!; [reflexivity | reflexivity |].
  intros H. vm_compute in H. discriminate H.
Qed.

(** ** [update_provider_profile] *)

(** An employee's [$set] document holds no rate. *)
Lemma set_profile_same_rates (service_categories : list ServiceCategory)
    (description : option string)
    (working_hours : option (list (string * value))) (p : doc) :
  same_rates p
    (set_fields (profile_fields service_categories description working_hours) p).
Proof. split; unfold set_fields; by rewrite lookup_union_r. Qed.

(** C6.  [update_provider_profile] answers 403 to a caller who is
    neither kind of fixer and 404 to a fixer with no provider record,
    and returns for a fixer who has one.  Called by an employee fixer it
    leaves the hourly and the emergency rate of every stored provider
    record as they were, whatever rates are passed; called by a
    freelance fixer it stores each rate that is passed in the caller's
    provider record. *)
Theorem update_provider_profile_rates (service_categories : list ServiceCategory)
    (hourly_rate emergency_rate : option float) (description : option string)
    (working_hours : option (list (string * value)))
    (current_user : User.t) (db : DB) :
  let run :=
    update_provider_profile service_categories hourly_rate emergency_rate
      description working_hours current_user in
  let found (db : DB) :=
    List.find (doc_matches "user_id" (VStr (User.id current_user)))
      (service_providers db) in
  (is_fixer (User.role current_user) = false →
     run db = (Raised (HTTPException 403 "Not authorized"), db))
  ∧ (is_fixer (User.role current_user) = true → found db = None →
     run db = (Raised (HTTPException 404 "Provider profile not found"), db))
  ∧ (is_fixer (User.role current_user) = true → is_Some (found db) →
     result run db = Returned "Profile updated successfully")
  ∧ (User.role current_user = EMPLOYEE_FIXER →
     Forall2 same_rates (service_providers db) (service_providers (store run db)))
  ∧ (User.role current_user = FREELANCE_FIXER → is_Some (found db) →
     ∃ p', found (store run db) = Some p'
           ∧ (∀ r, hourly_rate = Some r → p' !! "hourly_rate" = Some (VFloat r))
           ∧ (∀ r, emergency_rate = Some r → p' !! "emergency_rate" = Some (VFloat r))).
Proof.
  intros run found. subst run found. unfold update_provider_profile.
  split_and!.
  - intros Hr. by rewrite Hr.
  - intros Hr Hf. rewrite Hr. run_handler. by rewrite Hf.
  - intros Hr [p Hf]. rewrite Hr. run_handler. by rewrite Hf.
  - intros Hr. rewrite Hr. run_handler.
    destruct (List.find _ (service_providers db)); simpl.
    + apply alter_first_Forall2; [done|]. intros p _.
      apply set_profile_same_rates.
    + apply Forall2_same_length_lookup_2; [done|]. intros; by simplify_eq.
  - intros Hr [p Hf]. rewrite Hr. run_handler. rewrite Hf. simpl.
    rewrite find_alter_first, Hf.
    + eexists. split; [done|]. split.
      * intros r ->. apply set_fields_lookup.
        destruct emergency_rate; by simplify_map_eq.
      * intros r ->. apply set_fields_lookup. by simplify_map_eq.
    + intros d Hd. rewrite doc_matches_set_fields; [done|].
      destruct hourly_rate, emergency_rate; by simplify_map_eq.
Qed.

(** Fred, a freelance fixer with a provider record, raises his hourly
    rate to 35.0 and passes no emergency rate. *)
Lemma update_provider_profile_rates_witness :
  ∃ p',
    List.find (doc_matches "user_id" (VStr "u3"))
      (service_providers
         (store (update_provider_profile [PLUMBING] (Some 35%float) None None None fred)
            market))
    = Some p'
    ∧ (∀ r, Some 35%float = Some r → p' !! "hourly_rate" = Some (VFloat r))
    ∧ (∀ r, @None float = Some r → p' !! "emergency_rate" = Some (VFloat r)).
Proof.
  apply (proj2 (proj2 (proj2 (proj2
    (update_provider_profile_rates [PLUMBING] (Some 35%float) None None None
       fred market))))).
  - reflexivity.
  - by eexists.
Defined.

(** Erin, an employee, passes new rates: her record keeps 20.0 and
    40.0. *)
Example update_provider_profile_employee :
  let db' :=
    store (update_provider_profile [PLUMBING] (Some 99%float) (Some 199%float)
             None None erin) market in
  ∃ p', List.find (doc_matches "user_id" (VStr "u4")) (service_providers db') = Some p'
        ∧ p' !! "hourly_rate" = Some (VFloat 20%float)
        ∧ p' !! "emergency_rate" = Some (VFloat 40%float).
Proof. eexists. split_and!; reflexivity. Qed.

(** ** [verify_session] *)

(** C9, as the code has it.  When the call to the external auth service
    raises, [verify_session] answers with status 500 and the text of the
    failure, and the store is left as it was. *)
Theorem verify_session_upstream_failure (session_id message uuid4 : string)
    (utcnow : Z) (db : DB) :
  verify_session session_id (HttpFailed message) uuid4 utcnow db
  = (Raised (HTTPException 500 message), db).
Proof. reflexivity. Qed.

(** C9, as stated, fails: a refused connection is answered with status
    500, not with 401. *)
Lemma verify_session_failure_not_unauthorized :
  result (verify_session "sid" (HttpFailed "connection refused") "u9" 3000) market
  = Raised (HTTPException 500 "connection refused")
  ∧ ¬ ∃ detail,
        result (verify_session "sid" (HttpFailed "connection refused") "u9" 3000) market
        = Raised (HTTPException 401 detail).
Proof. split; [reflexivity|]. intros [detail H]. vm_compute in H. discriminate H. Qed.

(** The status 401 raised for a response that is not 200 is raised
    inside the [try] block and caught by its [except Exception]: what
    leaves the handler is again status 500. *)
Lemma verify_session_non_200 (session_id uuid4 : string) (status_code : Z)
    (json : option doc) (utcnow : Z) (db : DB) :
  status_code ≠ 200 →
  verify_session session_id (HttpResponse status_code json) uuid4 utcnow db
  = (Raised (HTTPException 500 "401: Invalid session"), db).
Proof.
  intros Hs. unfold verify_session. run_handler.
  destruct (status_code =? 200) eqn:He; [lia|]. reflexivity.
Qed.

(** Whatever the auth service answers, an exception that leaves
    [verify_session] has status 500. *)
Lemma verify_session_raises_500 (session_id uuid4 : string)
    (response : http_result) (utcnow : Z) (db db' : DB) (e : exn) :
  verify_session session_id response uuid4 utcnow db = (Raised e, db') →
  ∃ detail, e = HTTPException 500 detail.
Proof.
  unfold verify_session, try_except.
  destruct (_ db) as [[a|e'] db1]; intros H; inversion H; eauto.
Qed.

(** ** [get_bookings] *)

Lemma enrich_booking_returns (b : doc) (db : DB) :
  joinable_booking b → Forall joinable_provider (service_providers db) →
  ∃ e, enrich_booking b db = (Returned e, db) ∧ eb_booking e = b.
Proof.
  intros [[c Hc] [p Hp]] Hprov. unfold enrich_booking. run_handler.
  rewrite Hc, Hp. simpl.
  destruct (List.find _ (service_providers db)) as [pd|] eqn:Hf; simpl.
  - apply find_some in Hf as [Hin _].
    rewrite Forall_forall in Hprov.
    destruct (Hprov pd) as [u Hu]; [by apply list_elem_of_In|].
    rewrite Hu. simpl. eauto.
  - eauto.
Qed.

Lemma for_each_enrich (l : list doc) (db : DB) :
  Forall joinable_booking l → Forall joinable_provider (service_providers db) →
  ∃ es, for_each enrich_booking l db = (Returned es, db) ∧ eb_booking <$> es = l.
Proof.
  intros Hl Hprov. induction Hl as [|b l Hb Hl IH]; simpl.
  - by exists [].
  - destruct (enrich_booking_returns b db Hb Hprov) as (e & He & Heb).
    destruct IH as (es & Hes & Hmap).
    exists (e :: es). unfold mbind, M_bind. rewrite He, Hes. simpl.
    split; [done|]. by f_equal.
Qed.

Lemma Forall_take_filter (P : doc → Prop) (f : doc → bool) (n : nat) (l : list doc) :
  Forall P l → Forall P (take n (List.filter f l)).
Proof.
  intros Hl. apply Forall_take. induction Hl as [|d l Hd Hl IH]; simpl; [done|].
  destruct (f d); [by constructor | done].
Qed.

(** What [get_bookings] returns once its filter is known. *)
Lemma get_bookings_filtered (current_user : User.t) (db : DB) (key : string)
    (q : value) :
  Forall joinable_booking (bookings db) →
  Forall joinable_provider (service_providers db) →
  bookings_query current_user db = (Returned (Some (key, q)), db) →
  ∃ l, get_bookings current_user db = (Returned l, db)
       ∧ eb_booking <$> l
         = take 100 (List.filter (doc_matches key q) (bookings db)).
Proof.
  intros Hb Hp Hq.
  destruct (for_each_enrich
              (take 100 (List.filter (doc_matches key q) (bookings db))) db)
    as (es & Hes & Hmap); [by apply Forall_take_filter | done |].
  exists es. split; [|done].
  unfold get_bookings, mbind, M_bind. rewrite Hq.
  unfold find_to_list. cbv beta iota.
  change (filter_matches (Some (key, q))) with (doc_matches key q).
  change (docs Bookings db) with (bookings db). by rewrite Hes.
Qed.

(** C3, as the code has it.  In a store whose bookings and provider
    records hold the ids they are joined on, [get_bookings] returns, in
    the order of the store, the first 100 of the bookings in the
    caller's scope: for a customer the bookings whose [customer_id] is
    the caller's id, for a fixer with a provider record those whose
    [provider_id] is that record's id, for the owner of a stored
    company those whose [company_id] is the company's id. *)
Theorem get_bookings_scope (current_user : User.t) (db : DB) (key : string)
    (q : value) :
  Forall joinable_booking (bookings db) →
  Forall joinable_provider (service_providers db) →
  booking_scope current_user db key q →
  ∃ l, get_bookings current_user db = (Returned l, db)
       ∧ eb_booking <$> l
         = take 100 (List.filter (doc_matches key q) (bookings db)).
Proof.
  intros Hb Hp Hscope. apply get_bookings_filtered; [done | done |].
  unfold bookings_query.
  destruct Hscope as [(Hr & -> & ->)|[(Hr & -> & p & Hf & Hi)|(Hr & -> & c & Hf & Hi)]].
  - by rewrite Hr.
  - destruct (User.role current_user); try discriminate; run_handler;
      by rewrite Hf, Hi.
  - rewrite Hr. run_handler. by rewrite Hf, Hi.
Qed.

(** Carol, who owns company [c1], lists the bookings of her company:
    the one booking of her employee Erin. *)
Lemma get_bookings_scope_witness :
  ∃ l, get_bookings carol market = (Returned l, market)
       ∧ eb_booking <$> l
         = take 100 (List.filter (doc_matches "company_id" (VStr "c1"))
                       (bookings market)).
Proof.
  apply (get_bookings_scope carol market "company_id" (VStr "c1")).
  - repeat constructor; by eexists.
  - repeat constructor; by eexists.
  - right. right. split; [reflexivity|]. split; [reflexivity|].
    exists carol_company. split; reflexivity.
Defined.

Example get_bookings_carol :
  eb_booking <$> default [] (match result (get_bookings carol) market with
                             | Returned l => Some l
                             | Raised _ => None
                             end)
  = [booking2].
Proof. reflexivity. Qed.

(** C3, as stated, fails: 101 stored bookings carry Alice's id as
    [customer_id], and the call returns 100 of them. *)
Lemma get_bookings_not_all :
  length (List.filter (doc_matches "customer_id" (VStr (User.id alice)))
            (bookings crowded_market)) = 101%nat
  ∧ ∃ l, result (get_bookings alice) crowded_market = Returned l
         ∧ length l = 100%nat.
Proof.
  split; [vm_compute; reflexivity|].
  eexists. split; [reflexivity|]. vm_compute. reflexivity.
Qed.


(** * Further properties of the handlers *)

(** ** [update_booking_status]: answers and effect *)

(** No booking has the id [zz]. *)
Lemma update_booking_status_not_found_witness :
  update_booking_status "zz" CONFIRMED alice 3000 market
  = (Raised (HTTPException 404 "Booking not found"), market).
Proof.
  apply (update_booking_status_not_found "zz" CONFIRMED alice 3000 market).
  reflexivity.
Defined.

(** Bob, a customer, on Alice's booking. *)
Lemma update_booking_status_customer_forbidden_witness :
  update_booking_status "b1" CANCELLED bob 3000 market
  = (Raised (HTTPException 403 "Not authorized"), market).
Proof.
  apply (update_booking_status_customer_forbidden "b1" CANCELLED bob 3000 market
           booking1 (VStr "u1")).
  - reflexivity.
  - reflexivity.
  - reflexivity.
  - discriminate.
Defined.

(** Gina has the role of a fixer and no provider record. *)
Lemma update_booking_status_fixer_no_provider_witness :
  update_booking_status "b1" CONFIRMED gina 3000 market
  = (Raised (HTTPException 403 "Not authorized"), market).
Proof.
  apply (update_booking_status_fixer_no_provider "b1" CONFIRMED gina 3000 market
           booking1); reflexivity.
Defined.

(** Erin, whose provider record is [p2], on a booking of [p1]. *)
Lemma update_booking_status_fixer_other_provider_witness :
  update_booking_status "b1" CONFIRMED erin 3000 market
  = (Raised (HTTPException 403 "Not authorized"), market).
Proof.
  apply (update_booking_status_fixer_other_provider "b1" CONFIRMED erin 3000 market
           booking1 erin_provider (VStr "p1") (VStr "p2")); reflexivity.
Defined.

(** What a call does for a caller who passes the check. *)
Lemma update_booking_status_passes (booking_id : string)
    (status : BookingStatus) (current_user : User.t) (utcnow : Z) (db : DB)
    (booking : doc) :
  List.find (doc_matches "id" (VStr booking_id)) (bookings db) = Some booking →
  passes_check current_user booking db →
  update_booking_status booking_id status current_user utcnow db
  = (Returned "Booking status updated successfully",
     set_docs Bookings
       (alter_first (doc_matches "id" (VStr booking_id))
          (set_fields (<["status" := VStr (BookingStatus_value status)]> (
                       <["updated_at" := VTime utcnow]> ∅)))
          (bookings db)) db).
Proof.
  intros Hf Hpass.
  destruct Hpass as [[Hr Hc]|[(Hr & p & pid & i & Hp & Hb & Hi & He)|Hr]].
  - unfold update_booking_status. run_handler.
    by rewrite Hf, Hr, Hc; simpl; rewrite String.eqb_refl.
  - unfold update_booking_status. run_handler. rewrite Hf.
    destruct (User.role current_user); try discriminate; simpl;
      by rewrite Hp, Hb, Hi; simpl; rewrite He.
  - by apply (update_booking_status_company _ _ _ _ _ booking).
Qed.

(** A caller who passes the check sets the status of the first booking
    with the given id to any status, whatever the status was: the call
    returns, and reading the booking back gives the new status and the
    time of the call. *)
Theorem update_booking_status_sets_status (booking_id : string)
    (status : BookingStatus) (current_user : User.t) (utcnow : Z) (db : DB)
    (booking : doc) :
  List.find (doc_matches "id" (VStr booking_id)) (bookings db) = Some booking →
  passes_check current_user booking db →
  let run := update_booking_status booking_id status current_user utcnow in
  result run db = Returned "Booking status updated successfully"
  ∧ ∃ booking',
      List.find (doc_matches "id" (VStr booking_id)) (bookings (store run db))
      = Some booking'
      ∧ booking' !! "status" = Some (VStr (BookingStatus_value status))
      ∧ booking' !! "updated_at" = Some (VTime utcnow)
      ∧ same_but_status booking booking'.
Proof.
  intros Hf Hpass run. subst run. unfold result, store.
  rewrite (update_booking_status_passes _ _ _ _ _ booking) by done.
  simpl. split; [done|].
  rewrite find_alter_first, Hf.
  - eexists. split; [done|]. split_and!.
    + by apply set_fields_lookup.
    + by apply set_fields_lookup.
    + apply set_status_same_but_status.
  - intros d Hd. by rewrite doc_matches_set_fields.
Qed.

(** Alice moves her booking, which is pending, straight to
    [completed]. *)
Lemma update_booking_status_sets_status_witness :
  result (update_booking_status "b1" COMPLETED alice 3000) market
  = Returned "Booking status updated successfully"
  ∧ ∃ booking',
      List.find (doc_matches "id" (VStr "b1"))
        (bookings (store (update_booking_status "b1" COMPLETED alice 3000) market))
      = Some booking'
      ∧ booking' !! "status" = Some (VStr "completed")
      ∧ booking' !! "updated_at" = Some (VTime 3000)
      ∧ same_but_status booking1 booking'.
Proof.
  apply (update_booking_status_sets_status "b1" COMPLETED alice 3000 market booking1).
  - reflexivity.
  - left. split; reflexivity.
Defined.

(** ** [get_bookings]: bounds, joins and the unscoped listing *)

Lemma enrich_booking_spec (b : doc) (db : DB) :
  match enrich_booking b db with
  | (Returned e, db') => db' = db ∧ eb_booking e = b ∧ joined db e
  | (Raised _, db') => db' = db
  end.
Proof.
  unfold enrich_booking. run_handler.
  destruct (b !! "customer_id") as [c|] eqn:Hc; simpl; [|done].
  destruct (b !! "provider_id") as [p|] eqn:Hp; simpl; [|done].
  destruct (List.find (doc_matches "id" p) (service_providers db)) as [pd|] eqn:Hf;
    simpl.
  - destruct (pd !! "user_id") as [u|] eqn:Hu; simpl; [|done].
    split_and!; try done. exists c, p. simpl. rewrite Hf. split_and!; try done.
    by exists u.
  - split_and!; try done. exists c, p. simpl. by rewrite Hf.
Qed.

Lemma for_each_enrich_spec (l : list doc) (db : DB) :
  match for_each enrich_booking l db with
  | (Returned es, db') =>
      db' = db ∧ eb_booking <$> es = l ∧ Forall (joined db) es
  | (Raised _, db') => db' = db
  end.
Proof.
  induction l as [|b l IH]; simpl.
  - by split_and!.
  - unfold mbind, M_bind.
    pose proof (enrich_booking_spec b db) as Hb.
    destruct (enrich_booking b db) as [[e|x] db1]; [|done].
    destruct Hb as (-> & Heb & Hj).
    destruct (for_each enrich_booking l db) as [[es|x] db2]; [|done].
    destruct IH as (-> & Hmap & Hes). simpl.
    split_and!; [done | by f_equal | by constructor].
Qed.

Lemma bookings_query_store (current_user : User.t) (db : DB) :
  store (bookings_query current_user) db = db.
Proof.
  unfold bookings_query.
  destruct (User.role current_user); run_handler; try done.
  all: destruct (List.find _ _) as [d|]; simpl; [|done].
  all: by destruct (d !! "id").
Qed.

(** [get_bookings] never writes to the store, whether it returns or
    raises; what it returns are at most 100 entries, each a stored
    booking joined with the documents the store holds for its ids, in
    the order of the store. *)
Theorem get_bookings_read_only (current_user : User.t) (db : DB) :
  store (get_bookings current_user) db = db
  ∧ match result (get_bookings current_user) db with
    | Returned l =>
        (length l ≤ 100)%nat
        ∧ eb_booking <$> l `sublist_of` bookings db
        ∧ Forall (joined db) l
    | Raised _ => True
    end.
Proof.
  pose proof (bookings_query_store current_user db) as Hq.
  unfold get_bookings, result, store, mbind, M_bind in *.
  destruct (bookings_query current_user db) as [[query|x] db1]; simpl in Hq;
    subst db1; [|done].
  unfold find_to_list.
  pose proof (for_each_enrich_spec
                (take 100 (List.filter (filter_matches query) (docs Bookings db))) db)
    as Hl.
  destruct (for_each enrich_booking _ db) as [[es|x] db2]; [|done].
  destruct Hl as (-> & Hmap & Hj). simpl. split; [done|]. split_and!; [| |done].
  - rewrite <- (length_fmap eb_booking), Hmap, length_take. lia.
  - rewrite Hmap. etrans; [apply sublist_take|].
    clear. simpl. induction (bookings db) as [|b l IH]; simpl; [done|].
    destruct (filter_matches query b); by constructor.
Qed.

(** A caller with the role of a fixer and no provider record, or with
    the role [company] and no company, gets no filter at all: the
    first 100 bookings of the whole store. *)
Theorem get_bookings_unscoped (current_user : User.t) (db : DB) :
  Forall joinable_booking (bookings db) →
  Forall joinable_provider (service_providers db) →
  (is_fixer (User.role current_user) = true
   ∧ List.find (doc_matches "user_id" (VStr (User.id current_user)))
       (service_providers db) = None)
  ∨ (User.role current_user = COMPANY
     ∧ List.find (doc_matches "owner_id" (VStr (User.id current_user)))
         (companies db) = None) →
  ∃ l, get_bookings current_user db = (Returned l, db)
       ∧ eb_booking <$> l = take 100 (bookings db).
Proof.
  intros Hb Hp Hcase.
  assert (bookings_query current_user db = (Returned None, db)) as Hq.
  { unfold bookings_query. destruct Hcase as [[Hr Hf]|[Hr Hf]].
    - destruct (User.role current_user); try discriminate; run_handler;
        by rewrite Hf.
    - rewrite Hr. run_handler. by rewrite Hf. }
  destruct (for_each_enrich (take 100 (bookings db)) db)
    as (es & Hes & Hmap); [by apply Forall_take | done |].
  exists es. split; [|done].
  unfold get_bookings, mbind, M_bind. rewrite Hq.
  unfold find_to_list. cbv beta iota.
  assert (List.filter (filter_matches None) (docs Bookings db) = bookings db) as ->.
  { simpl. clear. induction (bookings db) as [|b l IH]; simpl; [done|].
    by rewrite IH. }
  by rewrite Hes.
Qed.

(** Gina, a fixer by role with no provider record, is shown both
    bookings of the market, neither of them hers. *)
Lemma get_bookings_unscoped_witness :
  ∃ l, get_bookings gina market = (Returned l, market)
       ∧ eb_booking <$> l = take 100 (bookings market).
Proof.
  apply (get_bookings_unscoped gina market).
  - repeat constructor; by eexists.
  - repeat constructor; by eexists.
  - left. split; reflexivity.
Defined.

(** ** [add_employee] *)

Lemma update_first_find_None (p : doc → bool) (f : doc → option doc) (l : list doc) :
  List.find p l = None → update_first p f l = Some l.
Proof.
  induction l as [|d l IH]; simpl; [done|].
  destruct (p d); [done|]. intros Hf. by rewrite IH.
Qed.

Lemma update_first_find_Some (p : doc → bool) (f : doc → option doc)
    (l : list doc) (d : doc) :
  List.find p l = Some d →
  update_first p f l = (λ d', alter_first p (λ _, d') l) <$> f d.
Proof.
  induction l as [|x l IH]; simpl; [done|].
  destruct (p x) eqn:Hp.
  - intros [= ->]. by destruct (f d).
  - intros Hf. rewrite (IH Hf). by destruct (f d).
Qed.

(** The three refusals of [add_employee], each with the store left as
    it was: 403 for a caller whose role is not [company], 404 for a
    company owner with no stored company, 404 when no user has the given
    email. *)
Theorem add_employee_errors (employee_email : string)
    (hourly_rate emergency_rate : float)
    (service_categories : list ServiceCategory)
    (current_user : User.t) (uuid4 : string) (utcnow : Z) (db : DB) :
  let run :=
    add_employee employee_email hourly_rate emergency_rate service_categories
      current_user uuid4 utcnow db in
  let company :=
    List.find (doc_matches "owner_id" (VStr (User.id current_user))) (companies db) in
  (User.role current_user ≠ COMPANY →
     run = (Raised (HTTPException 403 "Not authorized"), db))
  ∧ (User.role current_user = COMPANY → company = None →
     run = (Raised (HTTPException 404 "Company not found"), db))
  ∧ (User.role current_user = COMPANY → is_Some company →
     List.find (doc_matches "email" (VStr employee_email)) (users db) = None →
     run = (Raised (HTTPException 404 "Employee not found"), db)).
Proof.
  intros run company. subst run company. unfold add_employee. split_and!.
  - intros Hr. by destruct (User.role current_user).
  - intros Hr Hc. rewrite Hr. run_handler. by rewrite Hc.
  - intros Hr [c Hc] He. rewrite Hr. run_handler. by rewrite Hc, He.
Qed.

(** Alice is no company owner; Heidi owns no stored company; nobody
    has the third email. *)
Lemma add_employee_errors_witness :
  add_employee "erin@example.com" 20 40 [PLUMBING] alice "p9" 3000 market
  = (Raised (HTTPException 403 "Not authorized"), market)
  ∧ add_employee "erin@example.com" 20 40 [PLUMBING] heidi "p9" 3000 market
    = (Raised (HTTPException 404 "Company not found"), market)
  ∧ add_employee "nobody@example.com" 20 40 [PLUMBING] carol "p9" 3000 market
    = (Raised (HTTPException 404 "Employee not found"), market).
Proof.
  split_and!.
  - apply (proj1 (add_employee_errors "erin@example.com" 20 40 [PLUMBING]
                    alice "p9" 3000 market)).
    discriminate.
  - apply (proj1 (proj2 (add_employee_errors "erin@example.com" 20 40 [PLUMBING]
                           heidi "p9" 3000 market))); reflexivity.
  - apply (proj2 (proj2 (add_employee_errors "nobody@example.com" 20 40 [PLUMBING]
                           carol "p9" 3000 market)));
      [reflexivity | by eexists | reflexivity].
Defined.

(** What a call does once the company and the employee are found: the
    user and the provider record are written first, the company last,
    and a refusal of the last write leaves the first two in the store. *)
Lemma add_employee_run (employee_email : string)
    (hourly_rate emergency_rate : float)
    (service_categories : list ServiceCategory)
    (current_user : User.t) (uuid4 : string) (utcnow : Z) (db : DB)
    (company employee : doc) (company_id employee_id : string) :
  User.role current_user = COMPANY →
  List.find (doc_matches "owner_id" (VStr (User.id current_user))) (companies db)
  = Some company →
  company !! "id" = Some (VStr company_id) →
  List.find (doc_matches "email" (VStr employee_email)) (users db) = Some employee →
  employee !! "id" = Some (VStr employee_id) →
  let users' :=
    alter_first (doc_matches "id" (VStr employee_id))
      (set_fields (employee_fields (VStr company_id))) (users db) in
  let providers' :=
    (service_providers db
     ++ [employee_provider uuid4 employee_id company_id service_categories
           hourly_rate emergency_rate utcnow])%list in
  add_employee employee_email hourly_rate emergency_rate service_categories
    current_user uuid4 utcnow db
  = match update_first (doc_matches "id" (VStr company_id))
            (add_to_set "employees" (VStr employee_id)) (companies db) with
    | Some companies' =>
        (Returned "Employee added successfully",
         {| users := users'; companies := companies';
            service_providers := providers'; bookings := bookings db |})
    | None =>
        (Raised (WriteError "employees"),
         {| users := users'; companies := companies db;
            service_providers := providers'; bookings := bookings db |})
    end.
Proof.
  intros Hr Hc Hci He Hei users' providers'. subst users' providers'.
  unfold add_employee. rewrite Hr. run_handler.
  rewrite Hc, He, Hei, Hci. simpl.
  by destruct (update_first _ _ (companies db)).
Qed.

Lemma find_is_Some (p : doc → bool) (l : list doc) (d : doc) :
  List.find p l = Some d → p d = true.
Proof. intros H. by apply find_some in H as [_ ?]. Qed.

Lemma find_elem_is_Some (p : doc → bool) (l : list doc) (d : doc) :
  In d l → p d = true → is_Some (List.find p l).
Proof.
  intros Hin Hp. destruct (List.find p l) eqn:Hf; [by eexists|].
  pose proof (find_none _ _ Hf d Hin). congruence.
Qed.

Lemma alter_first_same (p : doc → bool) (l : list doc) (d : doc) :
  List.find p l = Some d → alter_first p (λ _, d) l = l.
Proof.
  induction l as [|x l IH]; simpl; [done|].
  destruct (p x); [by intros [= ->]|]. intros Hf. by rewrite IH.
Qed.

Lemma existsb_value_eqb_str (s : string) (l : list value) :
  existsb (λ x, value_eqb x (VStr s)) l = true ↔ VStr s ∈ l.
Proof.
  rewrite existsb_exists, list_elem_of_In. split.
  - intros (x & Hin & Hx). by apply value_eqb_str_r in Hx as ->.
  - intros Hin. exists (VStr s). split; [done | apply value_eqb_str_refl].
Qed.

(** [$addToSet] of a string on a field that is absent or an array: the
    field then is an array that holds the string, and no other field is
    touched. *)
Lemma add_to_set_str (k s : string) (d : doc) :
  d !! k = None ∨ (∃ l, d !! k = Some (VList l)) →
  ∃ d' l', add_to_set k (VStr s) d = Some d'
           ∧ d' !! k = Some (VList l')
           ∧ VStr s ∈ l'
           ∧ ∀ k', k' ≠ k → d' !! k' = d !! k'.
Proof.
  unfold add_to_set. intros [Hk|[l Hk]]; rewrite Hk.
  - eexists _, _. split; [done|]. rewrite lookup_insert_eq. split; [done|].
    split; [by apply list_elem_of_singleton|].
    intros k' Hne. by rewrite lookup_insert_ne.
  - destruct (existsb _ l) eqn:He.
    + exists d, l. split_and!; try done. by apply existsb_value_eqb_str.
    + eexists _, _. split; [done|]. rewrite lookup_insert_eq. split; [done|].
      split; [apply elem_of_app; right; by apply list_elem_of_singleton|].
      intros k' Hne. by rewrite lookup_insert_ne.
Qed.

(** A company owner adds a stored user: the call returns; the user
    read back by id is an employee fixer of the owner's company; one
    provider record, with the given rates and categories, is appended;
    the company read back by id lists the user among its employees; no
    booking is touched. *)
Theorem add_employee_enrols (employee_email : string)
    (hourly_rate emergency_rate : float)
    (service_categories : list ServiceCategory)
    (current_user : User.t) (uuid4 : string) (utcnow : Z) (db : DB)
    (company employee target : doc) (company_id employee_id : string) :
  User.role current_user = COMPANY →
  List.find (doc_matches "owner_id" (VStr (User.id current_user))) (companies db)
  = Some company →
  company !! "id" = Some (VStr company_id) →
  List.find (doc_matches "email" (VStr employee_email)) (users db) = Some employee →
  employee !! "id" = Some (VStr employee_id) →
  List.find (doc_matches "id" (VStr company_id)) (companies db) = Some target →
  target !! "employees" = None ∨ (∃ l, target !! "employees" = Some (VList l)) →
  let run :=
    add_employee employee_email hourly_rate emergency_rate service_categories
      current_user uuid4 utcnow in
  result run db = Returned "Employee added successfully"
  ∧ bookings (store run db) = bookings db
  ∧ (∃ user,
       List.find (doc_matches "id" (VStr employee_id)) (users (store run db))
       = Some user
       ∧ user !! "role" = Some (VStr "employee_fixer")
       ∧ user !! "company_id" = Some (VStr company_id))
  ∧ service_providers (store run db)
    = (service_providers db
       ++ [employee_provider uuid4 employee_id company_id service_categories
             hourly_rate emergency_rate utcnow])%list
  ∧ (∃ company' l,
       List.find (doc_matches "id" (VStr company_id)) (companies (store run db))
       = Some company'
       ∧ company' !! "employees" = Some (VList l)
       ∧ VStr employee_id ∈ l).
Proof.
  intros Hr Hc Hci He Hei Ht Hok run. subst run. unfold result, store.
  rewrite (add_employee_run _ _ _ _ _ _ _ _ company employee company_id employee_id)
    by done.
  rewrite (update_first_find_Some _ _ _ target Ht).
  destruct (add_to_set_str "employees" employee_id target Hok)
    as (target' & l' & Ha & Hl & Hin & Hframe).
  rewrite Ha. simpl. split_and!; try done.
  - destruct (find_elem_is_Some (doc_matches "id" (VStr employee_id)) (users db) employee)
      as [u Hu].
    + by apply find_some in He as [? _].
    + by apply doc_matches_str.
    + rewrite find_alter_first, Hu.
      * eexists. split; [done|]. split; by apply set_fields_lookup.
      * intros d Hd. by rewrite doc_matches_set_fields.
  - exists target', l'. split_and!; try done.
    rewrite find_alter_first, Ht; [done|].
    intros _ _. apply find_is_Some in Ht.
    apply doc_matches_str. apply doc_matches_str in Ht.
    by rewrite Hframe.
Qed.

(** Carol adds Bob, so far a customer, to her company. *)
Lemma add_employee_enrols_witness :
  let run := add_employee "bob@example.com" 22 44 [ELECTRICAL] carol "p9" 3000 in
  result run market = Returned "Employee added successfully"
  ∧ bookings (store run market) = bookings market
  ∧ (∃ user,
       List.find (doc_matches "id" (VStr "u2")) (users (store run market)) = Some user
       ∧ user !! "role" = Some (VStr "employee_fixer")
       ∧ user !! "company_id" = Some (VStr "c1"))
  ∧ service_providers (store run market)
    = (service_providers market
       ++ [employee_provider "p9" "u2" "c1" [ELECTRICAL] 22 44 3000])%list
  ∧ (∃ company' l,
       List.find (doc_matches "id" (VStr "c1")) (companies (store run market))
       = Some company'
       ∧ company' !! "employees" = Some (VList l)
       ∧ VStr "u2" ∈ l).
Proof.
  apply (add_employee_enrols "bob@example.com" 22 44 [ELECTRICAL] carol "p9" 3000
           market carol_company (User.dict bob) carol_company "c1" "u2");
    try reflexivity.
  right. eexists. reflexivity.
Defined.

(** Adding a user the company already lists: the employee list, and
    with it the whole [companies] collection, stays as it was, and yet
    another provider record is appended for the user. *)
Theorem add_employee_again (employee_email : string)
    (hourly_rate emergency_rate : float)
    (service_categories : list ServiceCategory)
    (current_user : User.t) (uuid4 : string) (utcnow : Z) (db : DB)
    (company employee target : doc) (company_id employee_id : string)
    (l : list value) :
  User.role current_user = COMPANY →
  List.find (doc_matches "owner_id" (VStr (User.id current_user))) (companies db)
  = Some company →
  company !! "id" = Some (VStr company_id) →
  List.find (doc_matches "email" (VStr employee_email)) (users db) = Some employee →
  employee !! "id" = Some (VStr employee_id) →
  List.find (doc_matches "id" (VStr company_id)) (companies db) = Some target →
  target !! "employees" = Some (VList l) →
  VStr employee_id ∈ l →
  let run :=
    add_employee employee_email hourly_rate emergency_rate service_categories
      current_user uuid4 utcnow in
  result run db = Returned "Employee added successfully"
  ∧ companies (store run db) = companies db
  ∧ service_providers (store run db)
    = (service_providers db
       ++ [employee_provider uuid4 employee_id company_id service_categories
             hourly_rate emergency_rate utcnow])%list.
Proof.
  intros Hr Hc Hci He Hei Ht Hl Hin run. subst run. unfold result, store.
  rewrite (add_employee_run _ _ _ _ _ _ _ _ company employee company_id employee_id)
    by done.
  rewrite (update_first_find_Some _ _ _ target Ht).
  unfold add_to_set. rewrite Hl.
  apply existsb_value_eqb_str in Hin. rewrite Hin. simpl.
  by rewrite alter_first_same.
Qed.

(** Carol adds Erin, who is her employee already and has the provider
    record [p2]: Erin now has two. *)
Lemma add_employee_again_witness :
  let run := add_employee "erin@example.com" 20 40 [PLUMBING] carol "p9" 3000 in
  result run market = Returned "Employee added successfully"
  ∧ companies (store run market) = companies market
  ∧ service_providers (store run market)
    = (service_providers market
       ++ [employee_provider "p9" "u4" "c1" [PLUMBING] 20 40 3000])%list.
Proof.
  apply (add_employee_again "erin@example.com" 20 40 [PLUMBING] carol "p9" 3000
           market carol_company (User.dict erin) carol_company "c1" "u4"
           [VStr "u4"]);
    try reflexivity.
  by apply list_elem_of_singleton.
Defined.

(** The three writes are not one: when the store refuses the last one
    (the [employees] field of the company is not an array), the call
    raises, and the user's new role and the new provider record are in
    the store all the same. *)
Theorem add_employee_partial_write (employee_email : string)
    (hourly_rate emergency_rate : float)
    (service_categories : list ServiceCategory)
    (current_user : User.t) (uuid4 : string) (utcnow : Z) (db : DB)
    (company employee target : doc) (company_id employee_id : string)
    (v : value) :
  User.role current_user = COMPANY →
  List.find (doc_matches "owner_id" (VStr (User.id current_user))) (companies db)
  = Some company →
  company !! "id" = Some (VStr company_id) →
  List.find (doc_matches "email" (VStr employee_email)) (users db) = Some employee →
  employee !! "id" = Some (VStr employee_id) →
  List.find (doc_matches "id" (VStr company_id)) (companies db) = Some target →
  target !! "employees" = Some v →
  (∀ l, v ≠ VList l) →
  let run :=
    add_employee employee_email hourly_rate emergency_rate service_categories
      current_user uuid4 utcnow in
  result run db = Raised (WriteError "employees")
  ∧ companies (store run db) = companies db
  ∧ stored_role employee_id (store run db) = Some (VStr "employee_fixer")
  ∧ service_providers (store run db)
    = (service_providers db
       ++ [employee_provider uuid4 employee_id company_id service_categories
             hourly_rate emergency_rate utcnow])%list.
Proof.
  intros Hr Hc Hci He Hei Ht Hv Hnl run. subst run. unfold result, store.
  rewrite (add_employee_run _ _ _ _ _ _ _ _ company employee company_id employee_id)
    by done.
  rewrite (update_first_find_Some _ _ _ target Ht).
  assert (add_to_set "employees" (VStr employee_id) target = None) as ->.
  { unfold add_to_set. rewrite Hv. destruct v; try done. by destruct (Hnl l). }
  simpl. split_and!; try done.
  unfold stored_role. cbn [users].
  destruct (find_elem_is_Some (doc_matches "id" (VStr employee_id)) (users db) employee)
    as [u Hu].
  - by apply find_some in He as [? _].
  - by apply doc_matches_str.
  - rewrite find_alter_first, Hu.
    + simpl. by apply set_fields_lookup.
    + intros d Hd. by rewrite doc_matches_set_fields.
Qed.

(** Carol adds Bob while her company document holds a string under
    [employees]. *)
Lemma add_employee_partial_write_witness :
  let run := add_employee "bob@example.com" 22 44 [ELECTRICAL] carol "p9" 3000 in
  result run market_bad_employees = Raised (WriteError "employees")
  ∧ companies (store run market_bad_employees) = companies market_bad_employees
  ∧ stored_role "u2" (store run market_bad_employees) = Some (VStr "employee_fixer")
  ∧ service_providers (store run market_bad_employees)
    = (service_providers market_bad_employees
       ++ [employee_provider "p9" "u2" "c1" [ELECTRICAL] 22 44 3000])%list.
Proof.
  apply (add_employee_partial_write "bob@example.com" 22 44 [ELECTRICAL] carol "p9"
           3000 market_bad_employees
           (<["employees" := VStr "u4"]> carol_company) (User.dict bob)
           (<["employees" := VStr "u4"]> carol_company) "c1" "u2" (VStr "u4"));
    try reflexivity.
  discriminate.
Defined.

(** ** [get_current_user] and the [User] model *)


Lemma validate_role_value (field : string) (r : UserRole) (db : DB) :
  validate_role field (VStr (UserRole_value r)) db = (Returned r, db).
Proof. by destruct r. Qed.


Lemma validate_str_store (field : string) (v : value) (db : DB) :
  snd (validate_str field v db) = db.
Proof. by destruct v. Qed.

Lemma validate_opt_str_store (field : string) (v : value) (db : DB) :
  snd (validate_opt_str field v db) = db.
Proof. by destruct v. Qed.

Lemma validate_role_store (field : string) (v : value) (db : DB) :
  snd (validate_role field v db) = db.
Proof.
  destruct v; try done. unfold validate_role.
  repeat (case_match; try done).
Qed.

Lemma with_default_store {A : Type} (d : doc) (k : string) (dflt : A)
    (validate : string → value → M A) (db : DB) :
  (∀ f v, snd (validate f v db) = db) →
  snd (with_default d k dflt validate db) = db.
Proof. intros H. unfold with_default. by destruct (d !! k). Qed.

Lemma required_store {A : Type} (d : doc) (k : string)
    (validate : string → value → M A) (db : DB) :
  (∀ f v, snd (validate f v db) = db) →
  snd (required d k validate db) = db.
Proof. intros H. unfold required. by destruct (d !! k). Qed.

Lemma bind_store {A B : Type} (m : M A) (f : A → M B) (db : DB) :
  snd (m db) = db → (∀ a, snd (f a db) = db) → snd ((m ≫= f) db) = db.
Proof.
  intros Hm Hf. unfold mbind, M_bind.
  destruct (m db) as [[a|e] db1]; simpl in Hm; subst db1; [apply Hf | done].
Qed.

Lemma User_parse_store (d : doc) (uuid4 : string) (utcnow : Z) (db : DB) :
  snd (User_parse d uuid4 utcnow db) = db.
Proof.
  unfold User_parse.
  repeat (apply bind_store;
          [first [ apply with_default_store | apply required_store ];
           intros f v;
           first [ apply validate_str_store | apply validate_opt_str_store
                 | apply validate_role_store | by destruct v ]
          | intros ?]).
  done.
Qed.

(** [get_current_user] answers 401 to a token no stored user holds. *)
Theorem get_current_user_unknown_token (token uuid4 : string) (utcnow : Z) (db : DB) :
  List.find (doc_matches "session_token" (VStr token)) (users db) = None →
  get_current_user token uuid4 utcnow db
  = (Raised (HTTPException 401 "Invalid authentication token"), db).
Proof. intros Hf. unfold get_current_user. run_handler. by rewrite Hf. Qed.

(** No user of the market holds this token. *)
Lemma get_current_user_unknown_token_witness :
  get_current_user "no-such-token" "u9" 3000 market
  = (Raised (HTTPException 401 "Invalid authentication token"), market).
Proof.
  apply (get_current_user_unknown_token "no-such-token" "u9" 3000 market).
  reflexivity.
Defined.



(** Resolving a token reads the store and never writes it. *)
Theorem get_current_user_read_only (token uuid4 : string) (utcnow : Z) (db : DB) :
  store (get_current_user token uuid4 utcnow) db = db.
Proof.
  unfold store, get_current_user. run_handler.
  destruct (List.find _ (users db)); [apply User_parse_store | done].
Qed.

(** ** [verify_session] *)

Lemma verify_session_raises_500_witness :
  ∃ detail, HTTPException 500 "401: Invalid session" = HTTPException 500 detail.
Proof.
  apply (verify_session_raises_500 "sid" "u9" (HttpResponse 403 None) 3000
           market market).
  reflexivity.
Defined.





(** ** [complete_profile]: what else it writes *)



(** ** [update_provider_profile]: what else it writes *)

Lemma profile_update_fields (service_categories : list ServiceCategory)
    (hourly_rate emergency_rate : option float) (description : option string)
    (working_hours : option (list (string * value))) (freelance : bool) (k : string) :
  k ≠ "service_categories" → k ≠ "description" → k ≠ "availability" →
  k ≠ "hourly_rate" → k ≠ "emergency_rate" →
  (if freelance
   then match emergency_rate with
        | Some r =>
            <["emergency_rate" := VFloat r]>
              match hourly_rate with
              | Some r' =>
                  <["hourly_rate" := VFloat r']>
                    (profile_fields service_categories description working_hours)
              | None => profile_fields service_categories description working_hours
              end
        | None =>
            match hourly_rate with
            | Some r' =>
                <["hourly_rate" := VFloat r']>
                  (profile_fields service_categories description working_hours)
            | None => profile_fields service_categories description working_hours
            end
        end
   else profile_fields service_categories description working_hours) !! k = None.
Proof.
  intros. unfold profile_fields.
  destruct freelance, emergency_rate, hourly_rate;
    by rewrite ?lookup_insert_ne, lookup_empty.
Qed.

(** A call of [update_provider_profile] that returns has written to the
    provider records alone, and in them to no field other than
    [service_categories], [description], [availability] and the two
    rates; a call that raises has written nothing. *)
Theorem update_provider_profile_frame (service_categories : list ServiceCategory)
    (hourly_rate emergency_rate : option float) (description : option string)
    (working_hours : option (list (string * value)))
    (current_user : User.t) (db : DB) :
  match update_provider_profile service_categories hourly_rate emergency_rate
          description working_hours current_user db with
  | (Returned _, db') =>
      Forall2 same_but_provider_profile (service_providers db) (service_providers db')
      ∧ users db' = users db
      ∧ companies db' = companies db
      ∧ bookings db' = bookings db
  | (Raised _, db') => db' = db
  end.
Proof.
  unfold update_provider_profile.
  destruct (is_fixer (User.role current_user)); simpl; [|done].
  run_handler. destruct (List.find _ (service_providers db)); simpl; [|done].
  split_and!; try done.
  apply alter_first_Forall2; [done|]. intros p _ k H1 H2 H3 H4 H5.
  unfold set_fields. rewrite lookup_union_r; [done|].
  apply (profile_update_fields service_categories hourly_rate emergency_rate
           description working_hours
           (UserRole_eqb (User.role current_user) FREELANCE_FIXER) k); done.
Qed.

(** The description and the availability are written on every call:
    left out, they are stored as [null] and as the empty dictionary. *)
Theorem update_provider_profile_overwrites (service_categories : list ServiceCategory)
    (hourly_rate emergency_rate : option float) (description : option string)
    (working_hours : option (list (string * value)))
    (current_user : User.t) (db : DB) :
  is_fixer (User.role current_user) = true →
  is_Some (List.find (doc_matches "user_id" (VStr (User.id current_user)))
             (service_providers db)) →
  let db' :=
    store (update_provider_profile service_categories hourly_rate emergency_rate
             description working_hours current_user) db in
  ∃ p',
    List.find (doc_matches "user_id" (VStr (User.id current_user)))
      (service_providers db') = Some p'
    ∧ p' !! "service_categories" = Some (categories_value service_categories)
    ∧ p' !! "description" = Some (opt_str description)
    ∧ p' !! "availability" = Some (VDict (default [] working_hours)).
Proof.
  intros Hr [p Hf] db'. subst db'. unfold store, update_provider_profile.
  rewrite Hr. run_handler. rewrite Hf. simpl.
  rewrite find_alter_first, Hf.
  - eexists. split; [done|].
    split_and!; apply set_fields_lookup;
      destruct (UserRole_eqb _ _), hourly_rate, emergency_rate; by simplify_map_eq.
  - intros d Hd. rewrite doc_matches_set_fields; [done|].
    destruct (UserRole_eqb _ _), hourly_rate, emergency_rate; by simplify_map_eq.
Qed.

(** Fred updates his categories and leaves the description out. *)
Lemma update_provider_profile_overwrites_witness :
  let db' := store (update_provider_profile [ELECTRICAL] None None None None fred) market in
  ∃ p',
    List.find (doc_matches "user_id" (VStr "u3")) (service_providers db') = Some p'
    ∧ p' !! "service_categories" = Some (categories_value [ELECTRICAL])
    ∧ p' !! "description" = Some VNull
    ∧ p' !! "availability" = Some (VDict []).
Proof.
  apply (update_provider_profile_overwrites [ELECTRICAL] None None None None fred market).
  - reflexivity.
  - by eexists.
Defined.

(** ** [create_booking] composed with listing and updating *)

Lemma filter_matches_snoc (k : string) (q : value) (l : list doc) (b : doc) :
  doc_matches k q b = true →
  List.filter (doc_matches k q) (l ++ [b]) = (List.filter (doc_matches k q) l ++ [b])%list.
Proof. intros Hb. rewrite List.filter_app. simpl. by rewrite Hb. Qed.

Lemma find_snoc_fresh (p : doc → bool) (l : list doc) (b : doc) :
  List.find p l = None → p b = true → List.find p (l ++ [b]) = Some b.
Proof.
  intros Hf Hb. induction l as [|d l IH]; simpl in *; [by rewrite Hb|].
  destruct (p d); [done | by apply IH].
Qed.

(** A customer who has fewer than 100 bookings sees a booking as soon
    as it is created: listing after a [create_booking] that returned
    gives the customer's bookings with the new one last. *)
Theorem create_booking_then_list (booking_data : BookingCreate)
    (current_user : User.t) (uuid4 : string) (utcnow utcnow' : Z)
    (db db' : DB) (b : doc) :
  Forall joinable_booking (bookings db) →
  Forall joinable_provider (service_providers db) →
  (length (List.filter (doc_matches "customer_id" (VStr (User.id current_user)))
             (bookings db)) < 100)%nat →
  create_booking booking_data current_user uuid4 utcnow utcnow' db = (Returned b, db') →
  ∃ l, get_bookings current_user db' = (Returned l, db')
       ∧ eb_booking <$> l
         = (List.filter (doc_matches "customer_id" (VStr (User.id current_user)))
              (bookings db) ++ [b])%list.
Proof.
  intros Hb Hp Hlen Hrun.
  apply create_booking_returned in Hrun
    as (provider & company_id & price & Hr & Hf & Hc & Hpr & -> & ->).
  match goal with |- context [(bookings db ++ [?x])%list] => set (b := x) end.
  assert (doc_matches "customer_id" (VStr (User.id current_user)) b = true) as Hm.
  { apply doc_matches_str. reflexivity. }
  destruct (get_bookings_filtered current_user
              (set_docs Bookings (bookings db ++ [b]) db)
              "customer_id" (VStr (User.id current_user)))
    as (l & Hl & Hmap).
  - simpl. apply Forall_app. split; [done|]. constructor; [|done].
    split; by eexists.
  - done.
  - unfold bookings_query. by rewrite Hr.
  - exists l. split; [done|]. rewrite Hmap. simpl.
    rewrite filter_matches_snoc by done.
    apply take_ge. rewrite length_app. simpl. lia.
Qed.

(** Alice lists her bookings after booking Fred: her first booking and
    the new one. *)
Lemma create_booking_then_list_witness :
  ∃ l, get_bookings alice
         (set_docs Bookings (bookings market ++ [alice_books_fred]) market)
       = (Returned l, set_docs Bookings (bookings market ++ [alice_books_fred]) market)
       ∧ eb_booking <$> l
         = (List.filter (doc_matches "customer_id" (VStr "u1")) (bookings market)
            ++ [alice_books_fred])%list.
Proof.
  apply (create_booking_then_list (plumbing_job "p1" false) alice "b3" 2500 2501 market).
  - repeat constructor; by eexists.
  - repeat constructor; by eexists.
  - vm_compute. lia.
  - reflexivity.
Defined.

(** The customer who created a booking can set its status right away,
    provided the id drawn for it was not in use: [create_booking]
    followed by [update_booking_status] on the new id returns, and the
    booking read back has the new status. *)
Theorem create_booking_then_update (booking_data : BookingCreate)
    (current_user : User.t) (uuid4 : string) (utcnow utcnow' now : Z)
    (status : BookingStatus) (db db' : DB) (b : doc) :
  List.find (doc_matches "id" (VStr uuid4)) (bookings db) = None →
  create_booking booking_data current_user uuid4 utcnow utcnow' db = (Returned b, db') →
  let run := update_booking_status uuid4 status current_user now in
  result run db' = Returned "Booking status updated successfully"
  ∧ ∃ b',
      List.find (doc_matches "id" (VStr uuid4)) (bookings (store run db')) = Some b'
      ∧ b' !! "status" = Some (VStr (BookingStatus_value status))
      ∧ same_but_status b b'.
Proof.
  intros Hfresh Hrun run.
  apply create_booking_returned in Hrun
    as (provider & company_id & price & Hr & Hf & Hc & Hpr & -> & ->).
  match goal with |- context [(bookings db ++ [?x])%list] => set (b := x) end.
  assert (List.find (doc_matches "id" (VStr uuid4)) (bookings db ++ [b]) = Some b)
    as Hfind.
  { apply find_snoc_fresh; [done|]. apply doc_matches_str. reflexivity. }
  subst run. unfold result, store.
  rewrite (update_booking_status_passes _ _ _ _ _ b);
    [|done | left; split; [done | reflexivity]].
  simpl. split; [done|].
  rewrite find_alter_first, Hfind.
  - eexists. split; [done|]. split.
    + by apply set_fields_lookup.
    + apply set_status_same_but_status.
  - intros d Hd. by rewrite doc_matches_set_fields.
Qed.

(** Alice cancels the booking she has just made. *)
Lemma create_booking_then_update_witness :
  let db' := set_docs Bookings (bookings market ++ [alice_books_fred]) market in
  let run := update_booking_status "b3" CANCELLED alice 2600 in
  result run db' = Returned "Booking status updated successfully"
  ∧ ∃ b',
      List.find (doc_matches "id" (VStr "b3")) (bookings (store run db')) = Some b'
      ∧ b' !! "status" = Some (VStr "cancelled")
      ∧ same_but_status alice_books_fred b'.
Proof.
  apply (create_booking_then_update (plumbing_job "p1" false) alice "b3" 2500 2501
           2600 CANCELLED market); reflexivity.
Defined.

(** ** [get_service_providers] *)

Lemma doc_matches_elem_offers (c : ServiceCategory) (p : doc) :
  doc_matches_elem "service_categories" (VStr (ServiceCategory_value c)) p = true
  ↔ offers c p.
Proof.
  unfold doc_matches_elem, offers.
  destruct (p !! "service_categories") as [v|]; [|split; [done | by intros [?|(?&?&?)]]].
  destruct v; simpl; try (split; [done | by intros [?|(?&?&?)]]).
  - rewrite String.eqb_eq. split.
    + intros ->. by left.
    + intros [[= ->]|(? & ? & ?)]; done.
  - rewrite orb_false_r, existsb_value_eqb_str. split.
    + intros Hin. right. by eexists.
    + intros [?|(l' & [= <-] & Hin)]; done.
Qed.

Lemma enrich_provider_spec (p : doc) (db : DB) :
  match enrich_provider p db with
  | (Returned e, db') => db' = db ∧ ep_provider e = p ∧ joined_provider db e
  | (Raised _, db') => db' = db ∧ p !! "user_id" = None
  end.
Proof.
  unfold enrich_provider, get. run_handler.
  destruct (p !! "user_id") as [u|] eqn:Hu; simpl; [|done].
  destruct (p !! "company_id") as [c|] eqn:Hc; simpl;
    [destruct (truthy c) eqn:Ht; simpl|].
  all: split_and!; try done; split; simpl; [by exists u|].
  all: rewrite ?Hc; simpl; by rewrite ?Ht.
Qed.

Lemma for_each_enrich_provider (l : list doc) (db : DB) :
  match for_each enrich_provider l db with
  | (Returned es, db') =>
      db' = db ∧ ep_provider <$> es = l ∧ Forall (joined_provider db) es
  | (Raised _, db') => db' = db ∧ ¬ Forall joinable_provider l
  end.
Proof.
  induction l as [|p l IH]; simpl.
  - by split_and!.
  - unfold mbind, M_bind.
    pose proof (enrich_provider_spec p db) as Hp.
    destruct (enrich_provider p db) as [[e|x] db1].
    + destruct Hp as (-> & Hep & Hj).
      destruct (for_each enrich_provider l db) as [[es|x] db2].
      * destruct IH as (-> & Hmap & Hes). simpl.
        split_and!; [done | by f_equal | by constructor].
      * destruct IH as (-> & Hn). split; [done|].
        intros HF. apply Hn. by inversion HF.
    + destruct Hp as (-> & Hnone). split; [done|].
      intros HF. inversion HF as [|? ? [u Hu] ?]; subst. congruence.
Qed.

(** [get_service_providers] never writes to the store.  When every
    selected provider record holds a [user_id] it returns, in store
    order, the first 100 of the records that offer the category asked
    for (of all records when none is asked for), each joined with its
    user and, when it has a company id, its company; in particular a
    listing by category holds only providers that offer the category. *)
Theorem get_service_providers_by_category (category : option ServiceCategory)
    (emergency : option bool) (db : DB) :
  Forall joinable_provider (service_providers db) →
  ∃ l, get_service_providers category emergency db = (Returned l, db)
       ∧ ep_provider <$> l
         = take 100 (List.filter (providers_filter category) (service_providers db))
       ∧ Forall (joined_provider db) l
       ∧ ∀ c, category = Some c → Forall (λ e, offers c (ep_provider e)) l.
Proof.
  intros Hj. unfold get_service_providers, mbind, M_bind.
  pose proof (for_each_enrich_provider
                (take 100 (List.filter (providers_filter category)
                             (docs Service_providers db))) db) as Hl.
  destruct (for_each enrich_provider _ db) as [[es|x] db1].
  - destruct Hl as (-> & Hmap & Hes). exists es. split_and!; try done.
    intros c ->.
    apply (proj1 (Forall_fmap ep_provider (offers c) es)).
    rewrite Hmap. apply Forall_take. simpl.
    apply Forall_forall. intros p Hin. apply list_elem_of_In, filter_In in Hin as [_ Hp].
    by apply doc_matches_elem_offers.
  - destruct Hl as (_ & Hn). destruct Hn.
    by apply Forall_take_filter.
Qed.

(** Both providers of the market are plumbers; one works for a
    company. *)
Lemma get_service_providers_by_category_witness :
  ∃ l, get_service_providers (Some PLUMBING) None market = (Returned l, market)
       ∧ ep_provider <$> l
         = take 100 (List.filter (providers_filter (Some PLUMBING))
                       (service_providers market))
       ∧ Forall (joined_provider market) l
       ∧ ∀ c, Some PLUMBING = Some c → Forall (λ e, offers c (ep_provider e)) l.
Proof.
  apply (get_service_providers_by_category (Some PLUMBING) None market).
  repeat constructor; by eexists.
Defined.

Example get_service_providers_electrical :
  result (get_service_providers (Some ELECTRICAL) None) market = Returned [].
Proof. reflexivity. Qed.

Example get_service_providers_all :
  ep_company <$> default [] (match result (get_service_providers None None) market with
                             | Returned l => Some l
                             | Raised _ => None
                             end)
  = [None; Some carol_company].
Proof. reflexivity. Qed.

(** A stored user document that has lost its [name] no longer
    validates: the login is answered with status 500, and the new
    session token is in the store all the same. *)
Example verify_session_invalid_stored_user :
  let run :=
    verify_session "sid"
      (HttpResponse 200 (Some (session_data "ivan@example.com" "Ivan" "tok-new")))
      "u10" 3000 in
  (∃ detail, result run market_nameless = Raised (HTTPException 500 detail))
  ∧ (List.find (doc_matches "email" (VStr "ivan@example.com"))
       (users (store run market_nameless))
     ≫= (λ d : doc, d !! "session_token"))
    = Some (VStr "tok-new").
Proof. split; [by eexists | reflexivity]. Qed.
